(** * LINE MCP server: the protocol dispatcher, the delivery client and the
    webhook handler of [server.py], embedded as functions over decoded JSON
    bodies, with the outbound HTTP calls and the log records kept in an
    explicit trace. *)

From Stdlib Require Import ZArith String Ascii List Bool Lia.
From Stdlib Require Import Floats.SpecFloat Numbers.DecimalString.
Import ListNotations.
Local Open Scope string_scope.
Local Open Scope Z_scope.

(** ** Python strings

    A Python [str] is kept as the UTF-8 encoding of its code points.
    Concatenation, equality, emptiness and the search for an ASCII substring
    are the same on both sides of that encoding. *)

Definition byte (c : ascii) : Z := Z.of_N (N_of_ascii c).

Definition chr (n : Z) : ascii := ascii_of_N (Z.to_N n).

Definition str1 (c : ascii) : string := String c EmptyString.

(** The characters the string literals of this file cannot hold. *)
Definition dquote : string := str1 (chr 34).
Definition backslash : string := str1 (chr 92).

Definition str_of_Z (n : Z) : string := NilZero.string_of_int (Z.to_int n).

Fixpoint join (sep : string) (l : list string) : string :=
  match l with
  | [] => ""
  | [x] => x
  | x :: r => x ++ sep ++ join sep r
  end.

(** [needle in s] for strings. *)
Fixpoint contains (needle s : string) : bool :=
  prefix needle s ||
  match s with
  | EmptyString => false
  | String _ r => contains needle r
  end.

(** [str.lower()] on the ASCII letters.  Python also rewrites the letters
    outside ASCII, which are left as they are here.  The lowered text is only
    ever searched for the substring userid; the only characters outside ASCII
    whose lowercase holds an ASCII letter are U+0130 (i followed by U+0307)
    and U+212A (k), and neither can complete an occurrence of that substring,
    so the search has the same answer. *)
Definition lower_ascii (c : ascii) : ascii :=
  let b := byte c in
  if (65 <=? b) && (b <=? 90) then chr (b + 32) else c.

Fixpoint str_lower (s : string) : string :=
  match s with
  | EmptyString => EmptyString
  | String c r => String (lower_ascii c) (str_lower r)
  end.

(** Number of bytes of the character a lead byte opens. *)
Definition utf8_len (b : Z) : nat :=
  if b <? 192 then 1%nat
  else if b <? 224 then 2%nat
  else if b <? 240 then 3%nat
  else 4%nat.

(** The characters of a string, each as the string of its bytes. *)
Fixpoint utf8_split (pending : nat) (cur s : string) : list string :=
  match s with
  | EmptyString => match cur with EmptyString => [] | _ => [cur] end
  | String c r =>
      match pending with
      | S O => (cur ++ str1 c) :: utf8_split 0 "" r
      | S k => utf8_split k (cur ++ str1 c) r
      | O =>
          match utf8_len (byte c) with
          | S O => str1 c :: utf8_split 0 "" r
          | n => utf8_split (Nat.pred n) (str1 c) r
          end
      end
  end.

Definition utf8_chars (s : string) : list string := utf8_split 0 "" s.

(** Code point of one character. *)
Definition code_point (ch : string) : Z :=
  match ch with
  | EmptyString => 0
  | String c r =>
      let b := byte c in
      let lead :=
        if b <? 128 then b
        else if b <? 224 then Z.land b 31
        else if b <? 240 then Z.land b 15
        else Z.land b 7 in
      fold_left (fun acc c' => acc * 64 + Z.land (byte c') 63)
                (list_ascii_of_string r) lead
  end.

Definition hex_digit (n : Z) : ascii :=
  if n <? 10 then chr (48 + n) else chr (87 + n).

(** ['\\u{0:04x}'.format(n)] *)
Definition u_escape (n : Z) : string :=
  backslash ++ "u" ++
  String (hex_digit (Z.land (Z.shiftr n 12) 15))
    (String (hex_digit (Z.land (Z.shiftr n 8) 15))
      (String (hex_digit (Z.land (Z.shiftr n 4) 15))
        (String (hex_digit (Z.land n 15)) EmptyString))).

(** [json.encoder.ESCAPE_DCT], then the characters each encoder rewrites:
    [py_encode_basestring] (ensure_ascii=False) touches the quote, the
    backslash and the controls below 0x20, [py_encode_basestring_ascii]
    everything outside [' '..'~'], astral characters as a surrogate pair. *)
Definition escape_dct (n : Z) : option string :=
  if n =? 92 then Some (backslash ++ backslash)
  else if n =? 34 then Some (backslash ++ dquote)
  else if n =? 8 then Some (backslash ++ "b")
  else if n =? 12 then Some (backslash ++ "f")
  else if n =? 10 then Some (backslash ++ "n")
  else if n =? 13 then Some (backslash ++ "r")
  else if n =? 9 then Some (backslash ++ "t")
  else None.

Definition escape_char (ensure_ascii : bool) (ch : string) : string :=
  let n := code_point ch in
  match escape_dct n with
  | Some e => e
  | None =>
      if n <? 32 then u_escape n
      else if negb ensure_ascii then ch
      else if n <? 127 then ch
      else if n <? 65536 then u_escape n
      else
        let m := n - 65536 in
        u_escape (Z.lor 55296 (Z.land (Z.shiftr m 10) 1023)) ++
        u_escape (Z.lor 56320 (Z.land m 1023))
  end.

Definition encode_basestring (ensure_ascii : bool) (s : string) : string :=
  dquote ++ String.concat "" (map (escape_char ensure_ascii) (utf8_chars s)) ++ dquote.

(** A lone surrogate (U+D800 to U+DFFF) is the one kind of character a
    [str] can hold and UTF-8 cannot: in the bytes kept here it is the byte
    0xED followed by a byte from 0xA0 to 0xBF.  [trails] tells whether a
    string opens with such a second byte. *)
Definition trails (s : string) : bool :=
  match s with
  | EmptyString => false
  | String d _ => (160 <=? byte d) && (byte d <=? 191)
  end.

Fixpoint has_surrogate (s : string) : bool :=
  match s with
  | EmptyString => false
  | String c r => ((byte c =? 237) && trails r) || has_surrogate r
  end.

(** [str()] of the UnicodeEncodeError that [text.encode("utf-8")] raises:
    it names the first lone surrogate and its position, counted in
    characters, or the positions of the first run of them. *)
Definition is_surrogate (ch : string) : bool :=
  (55296 <=? code_point ch) && (code_point ch <=? 57343).

Fixpoint surrogate_run (chars : list string) : Z :=
  match chars with
  | ch :: r => if is_surrogate ch then 1 + surrogate_run r else 0
  | [] => 0
  end.

Fixpoint first_surrogate (pos : Z) (chars : list string) : option (Z * string * Z) :=
  match chars with
  | [] => None
  | ch :: r =>
      if is_surrogate ch then Some (pos, ch, surrogate_run r)
      else first_surrogate (pos + 1) r
  end.

Definition utf8_error (text : string) : string :=
  match first_surrogate 0 (utf8_chars text) with
  | Some (pos, ch, 0) =>
      "'utf-8' codec can't encode character '" ++ u_escape (code_point ch)
      ++ "' in position " ++ str_of_Z pos ++ ": surrogates not allowed"
  | Some (pos, _, more) =>
      "'utf-8' codec can't encode characters in position " ++ str_of_Z pos
      ++ "-" ++ str_of_Z (pos + more) ++ ": surrogates not allowed"
  | None => ""
  end.

(** ** Python values

    What [json.loads] builds: [None], [bool], [int], [float], [str], [list]
    and [dict].  A dict keeps its items in insertion order; its keys are
    distinct, and [dict_lookup] reads the first item under a key. *)

#[local] Set Warnings "-register-all".

Inductive pyval : Type :=
  | PNone
  | PBool (b : bool)
  | PInt (n : Z)
  | PFloat (f : spec_float)
  | PStr (s : string)
  | PList (l : list pyval)
  | PDict (items : list (string * pyval)).

Fixpoint dict_lookup (k : string) (items : list (string * pyval)) : option pyval :=
  match items with
  | [] => None
  | (k', v) :: r => if String.eqb k k' then Some v else dict_lookup k r
  end.

(** [d.get(k, default)] on the items of a dict. *)
Definition dict_get (k : string) (items : list (string * pyval)) (default : pyval) : pyval :=
  match dict_lookup k items with
  | Some v => v
  | None => default
  end.

Definition has_key (k : string) (v : pyval) : bool :=
  match v with
  | PDict items => match dict_lookup k items with Some _ => true | None => false end
  | _ => false
  end.

(** No str of the value, key or item, holds a lone surrogate: the value
    can be written as UTF-8 text. *)
Fixpoint surrogate_free (v : pyval) : bool :=
  match v with
  | PStr s => negb (has_surrogate s)
  | PList l => forallb surrogate_free l
  | PDict items =>
      forallb (fun kv => negb (has_surrogate (fst kv)) && surrogate_free (snd kv)) items
  | _ => true
  end.

(** [bool(v)] *)
Definition truthy (v : pyval) : bool :=
  match v with
  | PNone => false
  | PBool b => b
  | PInt n => negb (n =? 0)
  | PFloat (S754_zero _) => false
  | PFloat _ => true
  | PStr s => negb (String.eqb s "")
  | PList l => match l with [] => false | _ => true end
  | PDict items => match items with [] => false | _ => true end
  end.

(** [a or b] *)
Definition py_or (a b : pyval) : pyval := if truthy a then a else b.

(** [v == "literal"] *)
Definition eq_str (v : pyval) (lit : string) : bool :=
  match v with
  | PStr s => String.eqb s lit
  | _ => false
  end.

(** [type(v).__name__] *)
Definition type_name (v : pyval) : string :=
  match v with
  | PNone => "NoneType"
  | PBool _ => "bool"
  | PInt _ => "int"
  | PFloat _ => "float"
  | PStr _ => "str"
  | PList _ => "list"
  | PDict _ => "dict"
  end.

(** An environment variable as [os.getenv] returns it. *)
Definition of_env (x : option string) : pyval :=
  match x with
  | Some s => PStr s
  | None => PNone
  end.

(** The texts of the interpreter that are not spelled out: [repr] of a
    float (shortest digits that round-trip) and [repr] of a str (choice of
    quote, escapes of the unprintable characters). *)
Record Interp : Type := {
  repr_float : spec_float -> string;
  repr_str : string -> string
}.

Section Printing.

Variable py : Interp.

Fixpoint py_repr (v : pyval) : string :=
  match v with
  | PNone => "None"
  | PBool true => "True"
  | PBool false => "False"
  | PInt n => str_of_Z n
  | PFloat f => repr_float py f
  | PStr s => repr_str py s
  | PList l => "[" ++ join ", " (map py_repr l) ++ "]"
  | PDict items =>
      "{" ++ join ", " (map (fun kv => repr_str py (fst kv) ++ ": " ++ py_repr (snd kv)) items)
          ++ "}"
  end.

(** [str(v)], what an f-string field prints. *)
Definition py_str (v : pyval) : string :=
  match v with
  | PStr s => s
  | _ => py_repr v
  end.

(** [json.dumps(v, ensure_ascii=...)] with the default separators. *)
Fixpoint json_dumps (ensure_ascii : bool) (v : pyval) : string :=
  match v with
  | PNone => "null"
  | PBool true => "true"
  | PBool false => "false"
  | PInt n => str_of_Z n
  | PFloat S754_nan => "NaN"
  | PFloat (S754_infinity false) => "Infinity"
  | PFloat (S754_infinity true) => "-Infinity"
  | PFloat f => repr_float py f
  | PStr s => encode_basestring ensure_ascii s
  | PList l => "[" ++ join ", " (map (json_dumps ensure_ascii) l) ++ "]"
  | PDict items =>
      "{" ++ join ", "
               (map (fun kv => encode_basestring ensure_ascii (fst kv) ++ ": "
                               ++ json_dumps ensure_ascii (snd kv)) items)
          ++ "}"
  end.

(** The text that [JSONResponse] makes of its content, to be encoded as
    UTF-8: [json.dumps(content, ensure_ascii=False, allow_nan=False,
    separators=(",", ":"))].  (No content built here holds a float.) *)
Fixpoint render (v : pyval) : string :=
  match v with
  | PList l => "[" ++ join "," (map render l) ++ "]"
  | PDict items =>
      "{" ++ join ","
               (map (fun kv => encode_basestring false (fst kv) ++ ":" ++ render (snd kv))
                    items)
          ++ "}"
  | _ => json_dumps false v
  end.

(** [str()] of the UnicodeEncodeError of a content that cannot be encoded. *)
Definition encode_error (content : pyval) : string := utf8_error (render content).

End Printing.

(** ** Outbound HTTP

    One call of [requests.post]: the keyword arguments that go in, and what
    comes back.  The call returns a response, or raises a
    [requests.exceptions.RequestException] ([Failed], with its [str()]), or
    raises an exception of another kind ([Raised], with its [str()]): the
    UnicodeEncodeError of a header value outside Latin-1, which the
    library lets through.  The texts of these exceptions come from the
    library and hold no lone surrogate. *)

Record Request : Type := {
  url : string;
  headers : list (string * string);
  json : pyval;
  timeout : option Z
}.

Record Response : Type := {
  status_code : Z;
  reason : string;
  final_url : string
}.

Inductive post_result : Type :=
  | Responded (r : Response)
  | Failed (cause : string)
  | Raised (cause : string).

(** [Response.raise_for_status()]: the message of the [HTTPError] it raises,
    for a status from 400 to 599, and nothing for any other status. *)
Definition raise_for_status (r : Response) : option string :=
  let sc := status_code r in
  if (400 <=? sc) && (sc <? 500) then
    Some (str_of_Z sc ++ " Client Error: " ++ reason r ++ " for url: " ++ final_url r)
  else if (500 <=? sc) && (sc <? 600) then
    Some (str_of_Z sc ++ " Server Error: " ++ reason r ++ " for url: " ++ final_url r)
  else None.

(** ** Effects

    What a handler does to the outside: log records and outbound calls, in
    the order they happen.  The network answers a call knowing all that
    happened before it. *)

Inductive level : Type := INFO | WARNING | ERROR.

Inductive effect : Type :=
  | Log (lv : level) (text : string)
  | Post (req : Request).

Definition trace : Type := list effect.

Definition network : Type := trace -> Request -> post_result.

(** The outbound calls of a trace. *)
Fixpoint posts (tr : trace) : list Request :=
  match tr with
  | [] => []
  | Post req :: r => req :: posts r
  | Log _ _ :: r => posts r
  end.

Inductive exn : Type :=
  | AttributeError (msg : string)
  | TypeError (msg : string)
  | RequestException (msg : string)
  | UnicodeEncodeError (msg : string).

(** [str(e)] *)
Definition exn_str (e : exn) : string :=
  match e with
  | AttributeError msg => msg
  | TypeError msg => msg
  | RequestException msg => msg
  | UnicodeEncodeError msg => msg
  end.

Inductive outcome (A : Type) : Type :=
  | Return (a : A)
  | Raise (e : exn).

Arguments Return {A} a.
Arguments Raise {A} e.

(** A computation runs from the trace so far and returns or raises, with the
    trace extended by what it did. *)
Definition M (A : Type) : Type := trace -> outcome A * trace.

Definition ret {A : Type} (a : A) : M A := fun tr => (Return a, tr).

Definition raise {A : Type} (e : exn) : M A := fun tr => (Raise e, tr).

Definition bind {A B : Type} (c : M A) (k : A -> M B) : M B :=
  fun tr =>
    match c tr with
    | (Return a, tr') => k a tr'
    | (Raise e, tr') => (Raise e, tr')
    end.

Notation "x <- c ;; k" := (bind c (fun x => k))
  (at level 61, c at next level, right associativity).
Notation "c ;;; k" := (bind c (fun _ => k))
  (at level 61, right associativity).

(** [try: c except Exception as e: h e] *)
Definition try_except {A : Type} (c : M A) (h : exn -> M A) : M A :=
  fun tr =>
    match c tr with
    | (Return a, tr') => (Return a, tr')
    | (Raise e, tr') => h e tr'
    end.

(** [try: c except requests.exceptions.RequestException as e: h e] *)
Definition try_except_request {A : Type} (c : M A) (h : exn -> M A) : M A :=
  fun tr =>
    match c tr with
    | (Raise (RequestException msg), tr') => h (RequestException msg) tr'
    | r => r
    end.

Definition logger (lv : level) (text : string) : M unit :=
  fun tr => (Return tt, (tr ++ [Log lv text])%list).

Fixpoint for_each {A : Type} (l : list A) (body : A -> M unit) : M unit :=
  match l with
  | [] => ret tt
  | x :: r => body x ;;; for_each r body
  end.

Definition attribute_error {A : Type} (v : pyval) (attr : string) : M A :=
  raise (AttributeError ("'" ++ type_name v ++ "' object has no attribute '" ++ attr ++ "'")).

(** [d.get(k, default)] *)
Definition py_get (d : pyval) (k : string) (default : pyval) : M pyval :=
  match d with
  | PDict items => ret (dict_get k items default)
  | _ => attribute_error d "get"
  end.

(** [v.lower()] *)
Definition py_lower (v : pyval) : M string :=
  match v with
  | PStr s => ret (str_lower s)
  | _ => attribute_error v "lower"
  end.

(** The items a [for] loop over [v] visits. *)
Definition py_iter (v : pyval) : M (list pyval) :=
  match v with
  | PList l => ret l
  | PDict items => ret (map (fun kv => PStr (fst kv)) items)
  | PStr s => ret (map PStr (utf8_chars s))
  | _ => raise (TypeError ("'" ++ type_name v ++ "' object is not iterable"))
  end.

(** [response.raise_for_status()] *)
Definition check_status (r : Response) : M unit :=
  match raise_for_status r with
  | Some msg => raise (RequestException msg)
  | None => ret tt
  end.

(** What a handler hands back to the HTTP layer: the content as it was
    rendered, and the status. *)
Record HttpReply : Type := JSONResponse {
  content : pyval;
  status : Z
}.

(** The process-wide configuration, read from the environment at start. *)
Record Credentials : Type := {
  CHANNEL_ACCESS_TOKEN : option string;
  GROUP_ID : option string;
  PERSONAL_USER_ID : option string
}.

(** The wrapping of every tool result. *)
Definition tool_content (text : string) : pyval :=
  PDict [("content", PList [PDict [("type", PStr "text"); ("text", PStr text)]])].

(** ** The server *)

Section Server.

Variable py : Interp.
Variable env : Credentials.
Variable net : network.

(** [requests.post(url, headers=..., json=..., timeout=...)]: the call is
    recorded, then its answer comes back or its exception is raised. *)
Definition requests_post (req : Request) : M Response :=
  fun tr =>
    match net tr req with
    | Responded r => (Return r, (tr ++ [Post req])%list)
    | Failed cause => (Raise (RequestException cause), (tr ++ [Post req])%list)
    | Raised cause => (Raise (UnicodeEncodeError cause), (tr ++ [Post req])%list)
    end.

(** [JSONResponse(content, status_code=...)] in the body of a handler: the
    constructor renders the content as UTF-8 JSON text on the spot, and
    raises UnicodeEncodeError when a str of the content holds a lone
    surrogate.  (The contents built here hold no float.) *)
Definition json_response (content : pyval) (status_code : Z) : M HttpReply :=
  if surrogate_free content then ret (JSONResponse content status_code)
  else raise (UnicodeEncodeError (encode_error py content)).

(** The checks made once, when the module is loaded. *)
Definition startup : M unit :=
  (if negb (truthy (of_env (CHANNEL_ACCESS_TOKEN env)))
   then logger WARNING "LINE_CHANNEL_ACCESS_TOKEN is not set" else ret tt) ;;;
  (if negb (truthy (of_env (GROUP_ID env)))
   then logger WARNING "LINE_GROUP_ID is not set" else ret tt) ;;;
  (if negb (truthy (of_env (PERSONAL_USER_ID env)))
   then logger WARNING "LINE_PERSONAL_USER_ID is not set" else ret tt).

Definition bearer : string :=
  "Bearer " ++ py_str py (of_env (CHANNEL_ACCESS_TOKEN env)).

Definition push_request (message target_group_id : pyval) : Request :=
  {| url := "https://api.line.me/v2/bot/message/push";
     headers := [("Content-Type", "application/json"); ("Authorization", bearer)];
     json := PDict [("to", target_group_id);
                    ("messages", PList [PDict [("type", PStr "text"); ("text", message)]])];
     timeout := Some 10 |}.

Definition send_line_message (message group_id : pyval) : M pyval :=
  let target_group_id := py_or group_id (of_env (GROUP_ID env)) in
  if negb (truthy target_group_id) then
    ret (PDict [("success", PBool false);
                ("error", PStr "GROUP_ID is not configured")])
  else if negb (truthy (of_env (CHANNEL_ACCESS_TOKEN env))) then
    ret (PDict [("success", PBool false);
                ("error", PStr "CHANNEL_ACCESS_TOKEN is not configured")])
  else
    try_except_request
      (response <- requests_post (push_request message target_group_id) ;;
       check_status response ;;;
       ret (PDict [("success", PBool true);
                   ("message", PStr "Message sent successfully");
                   ("group_id", target_group_id)]))
      (fun e =>
         logger ERROR ("Failed to send LINE message: " ++ exn_str e) ;;;
         ret (PDict [("success", PBool false); ("error", PStr (exn_str e))])).

Definition root : pyval :=
  PDict [("name", PStr "LINE MCP Server");
         ("version", PStr "2.0.0");
         ("description",
          PStr "MCP server for sending messages to LINE groups and personal chats")].

Definition health_check : pyval :=
  PDict [("status", PStr "healthy");
         ("channel_token_configured", PBool (truthy (of_env (CHANNEL_ACCESS_TOKEN env))));
         ("group_id_configured", PBool (truthy (of_env (GROUP_ID env))));
         ("personal_user_id_configured", PBool (truthy (of_env (PERSONAL_USER_ID env))))].

Definition reply_request (reply_token : pyval) (reply_message : string) : Request :=
  {| url := "https://api.line.me/v2/bot/message/reply";
     headers := [("Content-Type", "application/json"); ("Authorization", bearer)];
     json := PDict [("replyToken", reply_token);
                    ("messages", PList [PDict [("type", PStr "text");
                                               ("text", PStr reply_message)]])];
     timeout := None |}.

(** The body of the loop over the events of a webhook. *)
Definition webhook_event (event : pyval) : M unit :=
  event_type <- py_get event "type" PNone ;;
  source <- py_get event "source" (PDict []) ;;
  if eq_str event_type "message" then
    user_id <- py_get source "userId" PNone ;;
    group_id <- py_get source "groupId" PNone ;;
    message <- py_get event "message" (PDict []) ;;
    message_text <- py_get message "text" (PStr "") ;;
    logger INFO "===== USER ID DETECTED =====" ;;;
    logger INFO ("User ID: " ++ py_str py user_id) ;;;
    (if truthy group_id then logger INFO ("Group ID: " ++ py_str py group_id)
     else ret tt) ;;;
    logger INFO ("Message: " ++ py_str py message_text) ;;;
    logger INFO "============================" ;;;
    asked <- (if truthy user_id then
                lowered <- py_lower message_text ;;
                ret (contains "userid" lowered)
              else ret false) ;;
    if asked then
      reply_token <- py_get event "replyToken" PNone ;;
      if truthy reply_token then
        let reply_message := "あなたのUser IDは: " ++ py_str py user_id in
        requests_post (reply_request reply_token reply_message) ;;;
        ret tt
      else ret tt
    else ret tt
  else ret tt.

(** The reply of the [except] clause holds the [str()] of the exception
    and nothing of the request.  Python and requests write these texts for
    display, with what cannot be shown escaped, so this reply is one that
    always renders. *)
Definition webhook (body : pyval) : M HttpReply :=
  try_except
    (logger INFO ("Webhook received: " ++ json_dumps py false body) ;;;
     events <- py_get body "events" (PList []) ;;
     items <- py_iter events ;;
     for_each items webhook_event ;;;
     json_response (PDict [("status", PStr "ok")]) 200)
    (fun e =>
       logger ERROR ("Webhook error: " ++ exn_str e) ;;;
       ret (JSONResponse (PDict [("status", PStr "error");
                                 ("message", PStr (exn_str e))]) 500)).

Definition initialize_result : pyval :=
  PDict [("protocolVersion", PStr "2024-11-05");
         ("capabilities", PDict [("tools", PDict [])]);
         ("serverInfo", PDict [("name", PStr "LINE MCP Server");
                               ("version", PStr "2.0.0")])].

Definition tools_list_result : pyval :=
  PDict [("tools", PList [
    PDict [("name", PStr "send_line_message");
           ("description", PStr "LINEグループまたは個人にメッセージを送信します");
           ("inputSchema", PDict [
              ("type", PStr "object");
              ("properties", PDict [
                 ("message", PDict [
                    ("type", PStr "string");
                    ("description", PStr "送信するメッセージ")]);
                 ("target", PDict [
                    ("type", PStr "string");
                    ("description", PStr "送信先: 'group'（グループ）または 'personal'（個人）。省略時はグループ");
                    ("enum", PList [PStr "group"; PStr "personal"])]);
                 ("group_id", PDict [
                    ("type", PStr "string");
                    ("description", PStr "グループID（targetがgroupの場合に使用。省略時はデフォルトのグループ）")]);
                 ("user_id", PDict [
                    ("type", PStr "string");
                    ("description", PStr "ユーザーID（targetがpersonalの場合に使用。省略時はデフォルトのユーザー）")])]);
              ("required", PList [PStr "message"])])]])].

Definition tool_error (text : string) : pyval :=
  tool_content (json_dumps py true (PDict [("success", PBool false); ("error", PStr text)])).

(** The recipient of a [send_line_message] call, or the reply to build
    when the personal recipient is missing. *)
Definition resolve_target (target group_id user_id : pyval) : HttpReply + pyval :=
  if eq_str target "personal" then
    let target_id := py_or user_id (of_env (PERSONAL_USER_ID env)) in
    if negb (truthy target_id) then
      inl (JSONResponse (tool_error "PERSONAL_USER_ID is not configured") 200)
    else inr target_id
  else inr (py_or group_id (of_env (GROUP_ID env))).

(** The branch of [tools/call] for the tool [send_line_message]. *)
Definition call_send_line_message (arguments : pyval) : M HttpReply :=
  message <- py_get arguments "message" PNone ;;
  target <- py_get arguments "target" (PStr "group") ;;
  group_id <- py_get arguments "group_id" PNone ;;
  user_id <- py_get arguments "user_id" PNone ;;
  if negb (truthy message) then
    json_response (tool_error "message parameter is required") 200
  else
    match resolve_target target group_id user_id with
    | inl reply => json_response (content reply) (status reply)
    | inr target_id =>
        result <- send_line_message message target_id ;;
        json_response (tool_content (json_dumps py false result)) 200
    end.

(** The branch of the dispatcher for the method [tools/call]. *)
Definition tools_call (body : pyval) : M HttpReply :=
  params <- py_get body "params" (PDict []) ;;
  tool_name <- py_get params "name" PNone ;;
  arguments <- py_get params "arguments" (PDict []) ;;
  if eq_str tool_name "send_line_message" then
    call_send_line_message arguments
  else
    json_response (tool_error ("Unknown tool: " ++ py_str py tool_name)) 200.

Definition method_not_found (method : pyval) : HttpReply :=
  JSONResponse
    (PDict [("error", PDict [("code", PInt (-32601));
                             ("message", PStr ("Method not found: " ++ py_str py method))])])
    404.

(** The [except Exception] clause of the dispatcher.  Its reply holds the
    [str()] of the exception and nothing of the request, and always
    renders, as in the webhook. *)
Definition internal_error (e : exn) : M HttpReply :=
  logger ERROR ("Error processing MCP request: " ++ exn_str e) ;;;
  ret (JSONResponse
         (PDict [("error", PDict [("code", PInt (-32603));
                                  ("message", PStr ("Internal error: " ++ exn_str e))])])
         500).

Definition mcp_endpoint (body : pyval) : M HttpReply :=
  try_except
    (method <- py_get body "method" PNone ;;
     if eq_str method "initialize" then
       json_response initialize_result 200
     else if eq_str method "tools/list" then
       json_response tools_list_result 200
     else if eq_str method "tools/call" then
       tools_call body
     else
       json_response (content (method_not_found method)) 404)
    internal_error.

End Server.

(** ** Reading requests and results

    The shapes the statements below speak of. *)

(** The [params] of a body that is a [tools/call] request: the object given,
    or the empty one when the field is absent. *)
Definition call_params (body : pyval) : option (list (string * pyval)) :=
  match body with
  | PDict b =>
      if eq_str (dict_get "method" b PNone) "tools/call" then
        match dict_lookup "params" b with
        | None => Some []
        | Some (PDict p) => Some p
        | Some _ => None
        end
      else None
  | _ => None
  end.

(** The [arguments] of a body that is a [tools/call] of [send_line_message]. *)
Definition send_arguments (body : pyval) : option (list (string * pyval)) :=
  match call_params body with
  | Some p =>
      if eq_str (dict_get "name" p PNone) "send_line_message" then
        match dict_lookup "arguments" p with
        | None => Some []
        | Some (PDict a) => Some a
        | Some _ => None
        end
      else None
  | None => None
  end.

(** The value under a path of keys. *)
Fixpoint at_path (path : list string) (v : pyval) : option pyval :=
  match path with
  | [] => Some v
  | k :: r =>
      match v with
      | PDict items =>
          match dict_lookup k items with
          | Some w => at_path r w
          | None => None
          end
      | _ => None
      end
  end.

Definition path_get (path : list string) (v default : pyval) : pyval :=
  match at_path path v with
  | Some w => w
  | None => default
  end.

Definition keys (v : pyval) : list string :=
  match v with
  | PDict items => map fst items
  | _ => []
  end.

(** The [success] flag of a SendResult. *)
Definition succeeded (result : pyval) : bool :=
  match at_path ["success"] result with
  | Some (PBool b) => b
  | _ => false
  end.

Definition send_ok (recipient : pyval) : pyval :=
  PDict [("success", PBool true);
         ("message", PStr "Message sent successfully");
         ("group_id", recipient)].

Definition send_failed (cause : string) : pyval :=
  PDict [("success", PBool false); ("error", PStr cause)].

(** A WebhookEvent as the data model has it: an object whose [source] and
    [message], when given, are objects, the [text] of the message a string. *)
Definition well_formed_event (event : pyval) : bool :=
  match event with
  | PDict e =>
      match dict_lookup "source" e with
      | None | Some (PDict _) => true
      | Some _ => false
      end &&
      match dict_lookup "message" e with
      | None => true
      | Some (PDict m) =>
          match dict_lookup "text" m with
          | None | Some (PStr _) => true
          | Some _ => false
          end
      | Some _ => false
      end
  | _ => false
  end.

(** The auto-reply rule in the words of the specification: the reply calls
    (none or one) that an event asks for. *)
Definition auto_reply (py : Interp) (env : Credentials) (event : pyval) : list Request :=
  let event_type := path_get ["type"] event PNone in
  let user_id := path_get ["source"; "userId"] event PNone in
  let text :=
    match path_get ["message"; "text"] event (PStr "") with PStr s => s | _ => "" end in
  let reply_token := path_get ["replyToken"] event PNone in
  if eq_str event_type "message" && truthy user_id
     && contains "userid" (str_lower text) && truthy reply_token
  then [reply_request py env reply_token ("あなたのUser IDは: " ++ py_str py user_id)]
  else [].

(** An event the loop gets through without an exception of its own: an
    object, and when its type is "message" its [source] and [message] are
    objects (or absent) and, if the sender is known, the text is a str. *)
Definition event_passes (event : pyval) : bool :=
  match event with
  | PDict e =>
      if eq_str (dict_get "type" e PNone) "message" then
        match dict_get "source" e (PDict []), dict_get "message" e (PDict []) with
        | PDict src, PDict m =>
            negb (truthy (dict_get "userId" src PNone))
            || match dict_get "text" m (PStr "") with PStr _ => true | _ => false end
        | _, _ => false
        end
      else true
  | _ => false
  end.


(** Text that is ASCII throughout, and text that holds no lone surrogate
    and cannot complete one when it follows other text. *)
Definition low (s : string) : bool :=
  forallb (fun c => byte c <? 128) (list_ascii_of_string s).

Definition clean (s : string) : bool :=
  negb (has_surrogate s) && negb (trails s).

(** A character as [utf8_chars] cuts it: not empty, and of one byte unless
    it opens with a lead byte. *)
Definition whole (ch : string) : bool :=
  match ch with
  | EmptyString => false
  | String c r => (192 <=? byte c) || match r with EmptyString => true | _ => false end
  end.

(** The network never fails to answer. *)
Definition always_answers (net : network) : Prop :=
  forall tr req, exists r, net tr req = Responded r.

(** ** Sample inputs *)

(** An interpreter for the examples; none of them prints a float or the
    [repr] of a str that needs an escape. *)
Definition sample_interp : Interp :=
  {| repr_float := fun _ => "0.0";
     repr_str := fun s => "'" ++ s ++ "'" |}.

Definition env_full : Credentials :=
  {| CHANNEL_ACCESS_TOKEN := Some "tok"; GROUP_ID := Some "G1"; PERSONAL_USER_ID := Some "U0" |}.

Definition env_group : Credentials :=
  {| CHANNEL_ACCESS_TOKEN := Some "tok"; GROUP_ID := Some "G1"; PERSONAL_USER_ID := None |}.

Definition env_no_token : Credentials :=
  {| CHANNEL_ACCESS_TOKEN := None; GROUP_ID := Some "G1"; PERSONAL_USER_ID := None |}.

Definition env_empty : Credentials :=
  {| CHANNEL_ACCESS_TOKEN := None; GROUP_ID := None; PERSONAL_USER_ID := None |}.

Definition answer (sc : Z) (phrase : string) : network :=
  fun _ req => Responded {| status_code := sc; reason := phrase; final_url := url req |}.

Definition net_ok : network := answer 200 "OK".

Definition net_not_modified : network := answer 304 "Not Modified".

Definition net_down : network := fun _ _ => Failed "connection refused".

Definition tools_call_request (name : string) (arguments : list (string * pyval)) : pyval :=
  PDict [("method", PStr "tools/call");
         ("params", PDict [("name", PStr name); ("arguments", PDict arguments)])].

(** [{method:"tools/call", params:{name:"send_line_message",
      arguments:{message:"hi", target:"group"}}}] *)
Definition request_hi : pyval :=
  tools_call_request "send_line_message" [("message", PStr "hi"); ("target", PStr "group")].

(** The same call to the personal recipient, and one that leaves the
    message out. *)
Definition request_personal : pyval :=
  tools_call_request "send_line_message" [("message", PStr "hi"); ("target", PStr "personal")].

Definition request_personal_no_message : pyval :=
  tools_call_request "send_line_message" [("target", PStr "personal")].

Definition request_no_message : pyval :=
  tools_call_request "send_line_message" [("message", PStr "")].

Definition request_unknown_method : pyval :=
  PDict [("method", PStr "unknown_method")].

Definition request_tools_list (params : pyval) : pyval :=
  PDict [("method", PStr "tools/list"); ("params", params)].

Definition request_call_no_params : pyval :=
  PDict [("method", PStr "tools/call")].

(** [{events:[{type:"message", source:{userId:"U1"},
      message:{text:"what is my userid?"}, replyToken:"R1"}]}] *)
Definition event_userid : pyval :=
  PDict [("type", PStr "message");
         ("source", PDict [("userId", PStr "U1")]);
         ("message", PDict [("text", PStr "what is my userid?")]);
         ("replyToken", PStr "R1")].


Definition status_ok : HttpReply := JSONResponse (PDict [("status", PStr "ok")]) 200.

(** The str of the one character U+D800, a lone surrogate. *)
Definition lone_surrogate : string :=
  String (chr 237) (String (chr 160) (String (chr 128) EmptyString)).

Definition request_surrogate_method : pyval :=
  PDict [("method", PStr lone_surrogate)].

Definition request_null_arguments : pyval :=
  PDict [("method", PStr "tools/call");
         ("params", PDict [("name", PStr "send_line_message"); ("arguments", PNone)])].



(** Text that [str.encode("latin-1")] takes: every character is below
    U+0100, so that in UTF-8 no byte is above 0xC3. *)
Definition latin1 (s : string) : bool :=
  forallb (fun c => byte c <=? 195) (list_ascii_of_string s).

(** A network that is up: a call whose header values all encode as Latin-1
    is answered with 200, and any other is refused by the library with its
    UnicodeEncodeError (the text is the one for the token "あ"). *)
Definition net_raises : network :=
  fun _ req =>
    if forallb (fun h => latin1 (snd h)) (headers req)
    then Responded {| status_code := 200; reason := "OK"; final_url := url req |}
    else Raised
           "'latin-1' codec can't encode character '\u3042' in position 7: ordinal not in range(256)".

(** An access token that is no Latin-1 text. *)
Definition env_kana : Credentials :=
  {| CHANNEL_ACCESS_TOKEN := Some "あ";
     GROUP_ID := Some "G1";
     PERSONAL_USER_ID := Some "U0" |}.

Definition request_initialize : pyval :=
  PDict [("method", PStr "initialize"); ("params", PDict [("clientInfo", PStr "x")])].

Definition request_null_params : pyval :=
  PDict [("method", PStr "tools/call"); ("params", PNone)].

Definition request_list_arguments : pyval :=
  PDict [("method", PStr "tools/call");
         ("params", PDict [("name", PStr "send_line_message");
                           ("arguments", PList [PStr "hi"])])].

(** A call of a tool the server does not have, its arguments no object. *)
Definition request_other_tool : pyval :=
  PDict [("method", PStr "tools/call");
         ("params", PDict [("name", PStr "read_messages"); ("arguments", PInt 3)])].



Definition event_follow : pyval :=
  PDict [("type", PStr "follow"); ("source", PStr "not an object")].

Definition event_join : pyval := PDict [("type", PStr "join")].

(** A message event of a group, from a sender who does not ask. *)
Definition event_hello : pyval :=
  PDict [("type", PStr "message");
         ("source", PDict [("userId", PStr "U2"); ("groupId", PStr "G7")]);
         ("message", PDict [("text", PStr "hello")])].

(** A message event whose text is a number. *)
Definition event_number : pyval :=
  PDict [("type", PStr "message");
         ("source", PDict [("userId", PStr "U3")]);
         ("message", PDict [("text", PInt 5)])].

Definition webhook_of (events : list pyval) : pyval := PDict [("events", PList events)].

Definition net_fails : network := fun _ _ => Failed "connection refused".

(** ** The dispatcher as a table

    Where a request goes: the branches of [mcp_endpoint], read without the
    effects.  [route_of] follows the tests of the handler in their order. *)

Inductive route : Type :=
  | NotAnObject
  | Initialize
  | ToolsList
  | MethodNotFound (method : pyval)
  | BadParams (params : pyval)
  | UnknownTool (tool_name : pyval)
  | BadArguments (arguments : pyval)
  | MessageRequired
  | PersonalNotConfigured
  | Deliver (message target_id : pyval).

Definition route_of_arguments (env : Credentials) (a : list (string * pyval)) : route :=
  let message := dict_get "message" a PNone in
  if negb (truthy message) then MessageRequired
  else if eq_str (dict_get "target" a (PStr "group")) "personal" then
    let target_id := py_or (dict_get "user_id" a PNone) (of_env (PERSONAL_USER_ID env)) in
    if negb (truthy target_id) then PersonalNotConfigured
    else Deliver message target_id
  else Deliver message (py_or (dict_get "group_id" a PNone) (of_env (GROUP_ID env))).

Definition route_of (env : Credentials) (body : pyval) : route :=
  match body with
  | PDict b =>
      let method := dict_get "method" b PNone in
      if eq_str method "initialize" then Initialize
      else if eq_str method "tools/list" then ToolsList
      else if eq_str method "tools/call" then
        match dict_get "params" b (PDict []) with
        | PDict p =>
            let tool_name := dict_get "name" p PNone in
            if eq_str tool_name "send_line_message" then
              match dict_get "arguments" p (PDict []) with
              | PDict a => route_of_arguments env a
              | arguments => BadArguments arguments
              end
            else UnknownTool tool_name
        | params => BadParams params
        end
      else MethodNotFound method
  | _ => NotAnObject
  end.

(** The message of the AttributeError for [v.attr]. *)
Definition no_attribute (v : pyval) (attr : string) : string :=
  "'" ++ type_name v ++ "' object has no attribute '" ++ attr ++ "'".

(** The message of the TypeError for a loop over [v]. *)
Definition not_iterable (v : pyval) : string :=
  "'" ++ type_name v ++ "' object is not iterable".

(** The reply of the dispatcher's [except] clause, and what it leaves in
    the trace. *)
Definition internal_error_reply (cause : string) : HttpReply :=
  JSONResponse
    (PDict [("error", PDict [("code", PInt (-32603));
                             ("message", PStr ("Internal error: " ++ cause))])])
    500.

Definition internal_error_log (cause : string) : effect :=
  Log ERROR ("Error processing MCP request: " ++ cause).

(** The run of the dispatcher that ends in its [except] clause. *)
Definition answer_500 (cause : string) (tr : trace) : outcome HttpReply * trace :=
  (Return (internal_error_reply cause), (tr ++ [internal_error_log cause])%list).

(** The same for the webhook. *)
Definition webhook_error_reply (cause : string) : HttpReply :=
  JSONResponse (PDict [("status", PStr "error"); ("message", PStr cause)]) 500.

Definition webhook_error_log (cause : string) : effect :=
  Log ERROR ("Webhook error: " ++ cause).

Definition webhook_received (py : Interp) (body : pyval) : effect :=
  Log INFO ("Webhook received: " ++ json_dumps py false body).

(** The log records of a trace. *)
Fixpoint logs (tr : trace) : list (level * string) :=
  match tr with
  | [] => []
  | Log lv text :: r => (lv, text) :: logs r
  | Post _ :: r => logs r
  end.

(** The records the webhook writes for one event: the identifiers and the
    text of a message event, nothing for any other event. *)
Definition event_logs (py : Interp) (event : pyval) : list (level * string) :=
  if eq_str (path_get ["type"] event PNone) "message" then
    let group_id := path_get ["source"; "groupId"] event PNone in
    [(INFO, "===== USER ID DETECTED =====");
     (INFO, "User ID: " ++ py_str py (path_get ["source"; "userId"] event PNone))]
    ++ (if truthy group_id then [(INFO, "Group ID: " ++ py_str py group_id)] else [])
    ++ [(INFO, "Message: " ++ py_str py (path_get ["message"; "text"] event (PStr "")));
        (INFO, "============================")]
  else [].

(** The record [send_line_message] writes when the call has failed. *)
Definition delivery_error_record (cause : string) : level * string :=
  (ERROR, "Failed to send LINE message: " ++ cause).

(** The flags of the health endpoint, each with the warning that the start
    of the process writes for it. *)
Definition startup_checks : list (string * string) :=
  [("channel_token_configured", "LINE_CHANNEL_ACCESS_TOKEN is not set");
   ("group_id_configured", "LINE_GROUP_ID is not set");
   ("personal_user_id_configured", "LINE_PERSONAL_USER_ID is not set")].

Definition reported_missing (health : pyval) (check : string * string) : bool :=
  match at_path [fst check] health with
  | Some (PBool false) => true
  | _ => false
  end.

(** Log records as a piece of trace. *)
Definition records (l : list (level * string)) : trace :=
  map (fun r => Log (fst r) (snd r)) l.

(** An event the loop passes over: an object whose type is not "message". *)
Definition skipped_event (event : pyval) : bool :=
  match event with
  | PDict e => negb (eq_str (dict_get "type" e PNone) "message")
  | _ => false
  end.

(** What a [for] loop accepts: list, dict and str. *)
Definition iterable (v : pyval) : bool :=
  match v with
  | PList _ | PDict _ | PStr _ => true
  | _ => false
  end.

Definition is_dict (v : pyval) : bool :=
  match v with
  | PDict _ => true
  | _ => false
  end.

Definition is_str (v : pyval) : bool :=
  match v with
  | PStr _ => true
  | _ => false
  end.

(** The network fails every call with the same cause. *)
Definition always_fails (net : network) (cause : string) : Prop :=
  forall tr req, net tr req = Failed cause.

(** ** Properties *)

(** The serializer on the values the server prints: the separators of
    [json.dumps], the escapes of the two encoders. *)
Example json_dumps_send_ok (py : Interp) :
  json_dumps py false (send_ok (PStr "G1")) =
  String.concat dquote
    ["{"; "success"; ": true, "; "message"; ": "; "Message sent successfully"; ", ";
     "group_id"; ": "; "G1"; "}"].
Proof. reflexivity. Qed.

Example json_dumps_send_failed (py : Interp) :
  json_dumps py true (send_failed "Unknown tool: None") =
  String.concat dquote
    ["{"; "success"; ": false, "; "error"; ": "; "Unknown tool: None"; "}"].
Proof. reflexivity. Qed.

Example json_dumps_ensure_ascii (py : Interp) :
  json_dumps py true (PStr "ID: あ") = dquote ++ "ID: " ++ backslash ++ "u3042" ++ dquote /\
  json_dumps py false (PStr "ID: あ") = dquote ++ "ID: あ" ++ dquote.
Proof. split; reflexivity. Qed.

Example json_dumps_nested (py : Interp) :
  json_dumps py false (PList [PInt (-3); PNone; PDict []; PList [PBool true]]) =
  "[-3, null, {}, [true]]".
Proof. reflexivity. Qed.

Example json_dumps_lone_surrogate (py : Interp) :
  json_dumps py true (PStr lone_surrogate) = dquote ++ backslash ++ "ud800" ++ dquote /\
  json_dumps py false (PStr lone_surrogate) = dquote ++ lone_surrogate ++ dquote /\
  has_surrogate lone_surrogate = true /\
  has_surrogate "한국어 あ é 😀" = false.
Proof. repeat split; reflexivity. Qed.

Lemma posts_app (tr1 tr2 : trace) : posts (tr1 ++ tr2)%list = (posts tr1 ++ posts tr2)%list.
Proof.
  induction tr1 as [|e tr1 IH]; simpl.
  - reflexivity.
  - destruct e; simpl; now rewrite IH.
Qed.

Lemma truthy_str (s : string) : s <> "" -> truthy (PStr s) = true.
Proof.
  intros Hs. simpl. destruct (String.eqb_spec s ""); [contradiction | reflexivity].
Qed.

Lemma raise_for_status_accepts (r : Response) :
  status_code r < 400 \/ 600 <= status_code r -> raise_for_status r = None.
Proof.
  intros H. unfold raise_for_status.
  destruct (400 <=? status_code r) eqn:E1, (status_code r <? 500) eqn:E2,
           (500 <=? status_code r) eqn:E3, (status_code r <? 600) eqn:E4;
    simpl; try reflexivity; lia.
Qed.

Lemma raise_for_status_rejects (r : Response) :
  400 <= status_code r < 600 -> exists msg, raise_for_status r = Some msg.
Proof.
  intros H. unfold raise_for_status.
  destruct (400 <=? status_code r) eqn:E1, (status_code r <? 500) eqn:E2,
           (500 <=? status_code r) eqn:E3, (status_code r <? 600) eqn:E4;
    simpl; eauto; lia.
Qed.

(** *** Text that renders

    What [json.dumps] writes with [ensure_ascii] on holds no lone
    surrogate, whatever the str it was given. *)

Lemma trails_app (a b : string) :
  trails (a ++ b) = match a with EmptyString => trails b | _ => trails a end.
Proof.
  destruct a; reflexivity.
Qed.

Lemma clean_app (a b : string) : clean a = true -> clean b = true -> clean (a ++ b) = true.
Proof.
  unfold clean. intros Ha Hb.
  apply andb_prop in Ha as [Ha1 Ha2]. apply andb_prop in Hb as [Hb1 Hb2].
  apply negb_true_iff in Ha1, Ha2, Hb1, Hb2.
  assert (Hs : has_surrogate (a ++ b) = false).
  { clear Ha2. induction a as [|c a IH]; simpl; [exact Hb1|].
    simpl in Ha1. apply orb_false_iff in Ha1 as [Hc Ha1].
    rewrite (IH Ha1), orb_false_r, trails_app.
    destruct a; [now rewrite Hb2, andb_false_r | exact Hc]. }
  rewrite Hs, trails_app. destruct a; [now rewrite Hb2 | now rewrite Ha2].
Qed.

Lemma low_clean (s : string) : low s = true -> clean s = true.
Proof.
  unfold low, clean. intros H.
  assert (Ht : trails s = false).
  { destruct s as [|c r]; [reflexivity|]. simpl in *.
    apply andb_prop in H as [Hc _]. apply Z.ltb_lt in Hc.
    destruct (160 <=? byte c) eqn:E; [apply Z.leb_le in E; lia | reflexivity]. }
  rewrite Ht, andb_true_r. apply negb_true_iff.
  induction s as [|c r IH]; [reflexivity|]. simpl in *.
  apply andb_prop in H as [Hc Hr]. apply Z.ltb_lt in Hc.
  assert (E : (byte c =? 237) = false) by (apply Z.eqb_neq; lia).
  rewrite E. simpl. apply IH; [exact Hr|].
  destruct r as [|d r']; [reflexivity|]. simpl in *.
  apply andb_prop in Hr as [Hd _]. apply Z.ltb_lt in Hd.
  destruct (160 <=? byte d) eqn:E'; [apply Z.leb_le in E'; lia | reflexivity].
Qed.

Lemma byte_chr (n : Z) : 0 <= n < 256 -> byte (chr n) = n.
Proof.
  intros H. unfold byte, chr.
  rewrite N_ascii_embedding by lia. lia.
Qed.

Lemma land_below (x : Z) (k : Z) : 0 <= k -> 0 <= Z.land x (Z.ones k) < 2 ^ k.
Proof.
  intros Hk. rewrite Z.land_ones by exact Hk. apply Z.mod_pos_bound.
  apply Z.pow_pos_nonneg; lia.
Qed.

Lemma hex_digit_low (x : Z) : (byte (hex_digit (Z.land x 15)) <? 128) = true.
Proof.
  pose proof (land_below x 4 ltac:(lia)) as H.
  change (Z.ones 4) with 15 in H. change (2 ^ 4) with 16 in H.
  unfold hex_digit. apply Z.ltb_lt.
  destruct (Z.land x 15 <? 10); rewrite byte_chr; lia.
Qed.

Lemma u_escape_clean (n : Z) : clean (u_escape n) = true.
Proof.
  apply low_clean. unfold u_escape, low. simpl.
  now rewrite !hex_digit_low.
Qed.

Lemma escape_dct_clean (n : Z) (e : string) : escape_dct n = Some e -> clean e = true.
Proof.
  unfold escape_dct.
  repeat match goal with
         | |- context [if ?c then _ else _] => destruct c
         end;
    intros H; try discriminate H; injection H as <-; reflexivity.
Qed.

Lemma byte_nonneg (c : ascii) : 0 <= byte c.
Proof.
  unfold byte. lia.
Qed.

(** The code point only grows as the bytes of a character are read. *)
Lemma code_point_fold_grows (l : list ascii) (acc : Z) :
  0 <= acc ->
  acc <= fold_left (fun a c' => a * 64 + Z.land (byte c') 63) l acc.
Proof.
  revert acc. induction l as [|c l IH]; intros acc Hacc; simpl; [lia|].
  pose proof (land_below (byte c) 6 ltac:(lia)) as Hc.
  change (Z.ones 6) with 63 in Hc.
  specialize (IH (acc * 64 + Z.land (byte c) 63) ltac:(lia)). lia.
Qed.

Lemma code_point_fold_surrogate (r : string) (acc : Z) :
  0 <= acc ->
  has_surrogate r = true ->
  127 <= fold_left (fun a c' => a * 64 + Z.land (byte c') 63) (list_ascii_of_string r) acc.
Proof.
  revert acc. induction r as [|c r IH]; intros acc Hacc H; [discriminate H|].
  simpl in H. cbn [list_ascii_of_string fold_left].
  pose proof (land_below (byte c) 6 ltac:(lia)) as Hc.
  change (Z.ones 6) with 63 in Hc.
  apply orb_true_iff in H as [H|H].
  - apply andb_prop in H as [Hed Htr]. apply Z.eqb_eq in Hed.
    destruct r as [|d r']; [discriminate Htr|].
    pose proof (land_below (byte d) 6 ltac:(lia)) as Hd.
    change (Z.ones 6) with 63 in Hd.
    cbn [list_ascii_of_string fold_left].
    rewrite Hed. change (Z.land 237 63) with 45.
    pose proof (code_point_fold_grows (list_ascii_of_string r')
                  ((acc * 64 + 45) * 64 + Z.land (byte d) 63) ltac:(lia)).
    lia.
  - apply IH; [lia | exact H].
Qed.

(** A character that holds a lone surrogate is not one of the ASCII
    characters that the encoder copies. *)
Lemma code_point_surrogate (ch : string) : has_surrogate ch = true -> 127 <= code_point ch.
Proof.
  destruct ch as [|c r]; [discriminate|]. intros H. simpl in H.
  unfold code_point.
  apply orb_true_iff in H as [H|H].
  - apply andb_prop in H as [Hed Htr]. apply Z.eqb_eq in Hed.
    destruct r as [|d r']; [discriminate Htr|].
    rewrite Hed. cbv zeta. change (237 <? 128) with false. change (237 <? 224) with false.
    change (237 <? 240) with true. cbv iota. change (Z.land 237 15) with 13.
    cbn [list_ascii_of_string fold_left].
    pose proof (land_below (byte d) 6 ltac:(lia)) as Hd.
    change (Z.ones 6) with 63 in Hd.
    pose proof (code_point_fold_grows (list_ascii_of_string r')
                  (13 * 64 + Z.land (byte d) 63) ltac:(lia)).
    lia.
  - apply code_point_fold_surrogate; [|exact H].
    cbv zeta. pose proof (byte_nonneg c).
    pose proof (land_below (byte c) 5 ltac:(lia)) as H5. change (Z.ones 5) with 31 in H5.
    pose proof (land_below (byte c) 4 ltac:(lia)) as H4. change (Z.ones 4) with 15 in H4.
    pose proof (land_below (byte c) 3 ltac:(lia)) as H3. change (Z.ones 3) with 7 in H3.
    destruct (byte c <? 128); [lia|].
    destruct (byte c <? 224); [lia|].
    destruct (byte c <? 240); lia.
Qed.

Lemma code_point_trailing (ch : string) :
  whole ch = true -> trails ch = true -> code_point ch < 32.
Proof.
  destruct ch as [|c r]; [discriminate|]. simpl. intros Hw Ht.
  apply andb_prop in Ht as [H1 H2]. apply Z.leb_le in H1, H2.
  assert (E : (192 <=? byte c) = false) by (apply Z.leb_gt; lia).
  rewrite E in Hw. simpl in Hw. destruct r; [|discriminate Hw].
  pose proof (land_below (byte c) 5 ltac:(lia)) as H5. change (Z.ones 5) with 31 in H5.
  change (2 ^ 5) with 32 in H5.
  assert (E1 : (byte c <? 128) = false) by (apply Z.ltb_ge; lia).
  assert (E2 : (byte c <? 224) = true) by (apply Z.ltb_lt; lia).
  rewrite E1, E2. simpl. lia.
Qed.

Lemma utf8_split_whole (s cur : string) (pending : nat) :
  (cur = "" \/ whole cur = true /\ match cur with String c _ => 192 <= byte c | _ => True end) ->
  (pending <> 0%nat -> cur <> "") ->
  Forall (fun ch => whole ch = true) (utf8_split pending cur s).
Proof.
  revert cur pending. induction s as [|c r IH]; intros cur pending Hcur Hpend; simpl.
  - destruct cur as [|c0 r0]; [constructor|]. constructor; [|constructor].
    destruct Hcur as [H|[H _]]; [discriminate H | exact H].
  - assert (Hext : forall k, pending = S k ->
                             whole (cur ++ str1 c) = true /\
                             match (cur ++ str1 c)%string with
                             | String c0 _ => 192 <= byte c0
                             | _ => True
                             end).
    { intros k Hk. destruct cur as [|c0 r0]; [exfalso; apply Hpend; [lia|reflexivity]|].
      destruct Hcur as [H|[_ H]]; [discriminate H|]. simpl.
      assert (E : (192 <=? byte c0) = true) by (apply Z.leb_le; exact H).
      rewrite E. split; [reflexivity | exact H]. }
    destruct pending as [|[|k]].
    + unfold utf8_len.
      destruct (byte c <? 192) eqn:E1.
      * constructor; [simpl; apply orb_true_r|]. apply IH; [now left | intros H; now elim H].
      * apply Z.ltb_ge in E1.
        assert (Hlead : whole (str1 c) = true /\ 192 <= byte c).
        { split; [|exact E1]. simpl. apply orb_true_iff. left. now apply Z.leb_le. }
        destruct (byte c <? 224); [|destruct (byte c <? 240)]; simpl Nat.pred;
          (apply IH; [right; exact Hlead | intros _; discriminate]).
    + constructor; [apply (Hext 0%nat eq_refl)|].
      apply IH; [now left | intros H; now elim H].
    + apply IH; [right; apply (Hext (S k) eq_refl)|].
      intros _. destruct cur; discriminate.
Qed.

Lemma utf8_chars_whole (s : string) : Forall (fun ch => whole ch = true) (utf8_chars s).
Proof.
  apply utf8_split_whole; [now left | intros H; now elim H].
Qed.

Lemma escape_char_clean (ch : string) : whole ch = true -> clean (escape_char true ch) = true.
Proof.
  intros Hw. unfold escape_char. cbv zeta.
  destruct (escape_dct (code_point ch)) as [e|] eqn:Hd; [exact (escape_dct_clean _ _ Hd)|].
  destruct (code_point ch <? 32) eqn:H32; [apply u_escape_clean|].
  cbn [negb].
  destruct (code_point ch <? 127) eqn:H127.
  - apply Z.ltb_ge in H32. apply Z.ltb_lt in H127.
    unfold clean. apply andb_true_intro. split; apply negb_true_iff.
    + destruct (has_surrogate ch) eqn:Hs; [|reflexivity].
      pose proof (code_point_surrogate ch Hs). lia.
    + destruct (trails ch) eqn:Ht; [|reflexivity].
      pose proof (code_point_trailing ch Hw Ht). lia.
  - destruct (code_point ch <? 65536); [apply u_escape_clean|].
    apply clean_app; apply u_escape_clean.
Qed.

Lemma concat_clean (l : list string) :
  Forall (fun x => clean x = true) l -> clean (String.concat "" l) = true.
Proof.
  induction 1 as [|x l Hx Hl IH]; [reflexivity|].
  destruct l as [|y l]; [exact Hx|].
  change (clean (x ++ "" ++ String.concat "" (y :: l)) = true).
  apply clean_app; [exact Hx | exact IH].
Qed.

Lemma encode_basestring_clean (s : string) : clean (encode_basestring true s) = true.
Proof.
  unfold encode_basestring.
  apply clean_app; [reflexivity|]. apply clean_app; [|reflexivity].
  apply concat_clean. apply Forall_map.
  eapply Forall_impl; [|apply utf8_chars_whole].
  intros ch Hw. now apply escape_char_clean.
Qed.

Lemma surrogate_free_tool_content (text : string) :
  surrogate_free (tool_content text) = negb (has_surrogate text).
Proof.
  unfold tool_content. cbn [surrogate_free forallb fst snd].
  change (has_surrogate "content") with false.
  change (has_surrogate "type") with false.
  change (has_surrogate "text") with false.
  now destruct (has_surrogate text).
Qed.

(** The JSON text of a failure, as the dispatcher writes it, renders,
    whatever the text of the error. *)
Lemma tool_error_renders (py : Interp) (text : string) :
  surrogate_free (tool_error py text) = true.
Proof.
  assert (H : clean (json_dumps py true (send_failed text)) = true).
  { change (json_dumps py true (send_failed text))
      with ("{" ++ (encode_basestring true "success" ++ ": " ++ "false") ++ ", " ++
            (encode_basestring true "error" ++ ": " ++ encode_basestring true text) ++ "}").
    pose proof (encode_basestring_clean text) as He.
    generalize dependent (encode_basestring true text). intros e He.
    repeat (apply clean_app; try reflexivity). exact He. }
  unfold clean in H. apply andb_prop in H as [H _].
  unfold tool_error. rewrite surrogate_free_tool_content. exact H.
Qed.

Lemma has_surrogate_after_low (a b : string) :
  low a = true -> has_surrogate (a ++ b) = has_surrogate b.
Proof.
  unfold low. induction a as [|c a IH]; intros H; [reflexivity|]. simpl in *.
  apply andb_prop in H as [Hc Ha]. apply Z.ltb_lt in Hc.
  assert (E : (byte c =? 237) = false) by (apply Z.eqb_neq; lia).
  rewrite E. simpl. now apply IH.
Qed.

Section Delivery.

Variable py : Interp.
Variable env : Credentials.
Variable net : network.

(** What [send_line_message] does once both checks have passed, by the
    answer to its call. *)
Lemma send_line_message_posts (message group_id : pyval) (tr : trace) :
  truthy (py_or group_id (of_env (GROUP_ID env))) = true ->
  truthy (of_env (CHANNEL_ACCESS_TOKEN env)) = true ->
  let target := py_or group_id (of_env (GROUP_ID env)) in
  let req := push_request py env message target in
  send_line_message py env net message group_id tr =
  match net tr req with
  | Responded r =>
      match raise_for_status r with
      | None => (Return (send_ok target), (tr ++ [Post req])%list)
      | Some msg =>
          (Return (send_failed msg),
           (tr ++ [Post req; Log ERROR ("Failed to send LINE message: " ++ msg)])%list)
      end
  | Failed cause =>
      (Return (send_failed cause),
       (tr ++ [Post req; Log ERROR ("Failed to send LINE message: " ++ cause)])%list)
  | Raised cause => (Raise (UnicodeEncodeError cause), (tr ++ [Post req])%list)
  end.
Proof.
  intros Ht Hk target req. unfold send_line_message.
  rewrite Ht, Hk. cbn [negb].
  unfold try_except_request, bind, requests_post. fold target. fold req.
  destruct (net tr req) as [r|cause|cause].
  - unfold check_status. destruct (raise_for_status r) as [msg|]; cbn.
    + now rewrite <- app_assoc.
    + reflexivity.
  - cbn. now rewrite <- app_assoc.
  - reflexivity.
Qed.

Lemma send_line_message_no_recipient (message group_id : pyval) (tr : trace) :
  truthy (py_or group_id (of_env (GROUP_ID env))) = false ->
  send_line_message py env net message group_id tr =
  (Return (send_failed "GROUP_ID is not configured"), tr).
Proof.
  intros Ht. unfold send_line_message. now rewrite Ht.
Qed.

Lemma send_line_message_no_token (message group_id : pyval) (tr : trace) :
  truthy (py_or group_id (of_env (GROUP_ID env))) = true ->
  truthy (of_env (CHANNEL_ACCESS_TOKEN env)) = false ->
  send_line_message py env net message group_id tr =
  (Return (send_failed "CHANNEL_ACCESS_TOKEN is not configured"), tr).
Proof.
  intros Ht Hk. unfold send_line_message. now rewrite Ht, Hk.
Qed.

(** With a recipient of its own and the token set, the call goes out with
    this request. *)
Lemma push_request_with_token (message group_id : pyval) (tok : string) :
  CHANNEL_ACCESS_TOKEN env = Some tok ->
  push_request py env message group_id =
  {| url := "https://api.line.me/v2/bot/message/push";
     headers := [("Content-Type", "application/json");
                 ("Authorization", "Bearer " ++ tok)];
     json := PDict [("to", group_id);
                    ("messages", PList [PDict [("type", PStr "text");
                                               ("text", message)]])];
     timeout := Some 10 |}.
Proof.
  intros Htok. unfold push_request, bearer. now rewrite Htok.
Qed.

(** C3 (as amended): the two early exits of [send_line_message].  When
    neither the recipient passed in nor the default group identifier is
    there, the result is the failure "GROUP_ID is not configured"; when the
    recipient is there and the access token is not, it is the failure
    "CHANNEL_ACCESS_TOKEN is not configured".  Either way the trace is left
    as it was: no outbound call, and no log record. *)
Theorem C3_fail_fast (message group_id : pyval) (tr : trace) :
  (truthy (py_or group_id (of_env (GROUP_ID env))) = false ->
   send_line_message py env net message group_id tr =
   (Return (send_failed "GROUP_ID is not configured"), tr)) /\
  (truthy (py_or group_id (of_env (GROUP_ID env))) = true ->
   truthy (of_env (CHANNEL_ACCESS_TOKEN env)) = false ->
   send_line_message py env net message group_id tr =
   (Return (send_failed "CHANNEL_ACCESS_TOKEN is not configured"), tr)).
Proof.
  split.
  - apply send_line_message_no_recipient.
  - apply send_line_message_no_token.
Qed.

(** C9: every result that [send_line_message] returns is a dict with a
    boolean [success]; it has exactly one of the keys [message] and
    [error], it has [message] exactly when [success] is true, and
    [group_id] exactly then too.  A result is returned on each of its
    paths (the two early exits, an answer of any status, a
    RequestException); only an exception of another kind from the call
    itself leaves the function without one. *)
Theorem C9_result_shape (message group_id : pyval) (tr : trace) :
  (forall result tr',
     send_line_message py env net message group_id tr = (Return result, tr') ->
     (exists b, at_path ["success"] result = Some (PBool b)) /\
     has_key "message" result = negb (has_key "error" result) /\
     has_key "message" result = succeeded result /\
     has_key "group_id" result = succeeded result) /\
  ((forall cause,
      net tr (push_request py env message (py_or group_id (of_env (GROUP_ID env))))
      <> Raised cause) ->
   exists result tr',
     send_line_message py env net message group_id tr = (Return result, tr')).
Proof.
  destruct (truthy (py_or group_id (of_env (GROUP_ID env)))) eqn:Ht.
  - destruct (truthy (of_env (CHANNEL_ACCESS_TOKEN env))) eqn:Hk.
    + rewrite (send_line_message_posts message group_id tr Ht Hk).
      destruct (net tr _) as [r|cause|cause]; [destruct (raise_for_status r) as [msg|]| |];
        (split; [intros result tr' H; try discriminate H; injection H as <- <-; cbn; eauto|]);
        intros Hnet; eauto.
      now elim (Hnet cause).
    + rewrite (send_line_message_no_token message group_id tr Ht Hk).
      split; [intros result tr' H; injection H as <- <-; cbn; eauto | eauto].
  - rewrite (send_line_message_no_recipient message group_id tr Ht).
    split; [intros result tr' H; injection H as <- <-; cbn; eauto | eauto].
Qed.

(** C2 (as amended): with a non-empty message, a recipient passed in and
    the access token set, [send_line_message] calls [requests.post] exactly
    once: for the push endpoint, with the body [{to: recipient, messages:
    [{type: "text", text: message}]}], the header [Authorization: Bearer
    <token>] and timeout 10.  When the call is answered with a status
    outside 400..599 the result is the success [{success: true, message:
    "Message sent successfully", group_id: recipient}]; when the status is
    in 400..599 the result is the failure with the message of the
    HTTPError; when the call raises a RequestException the result is the
    failure with that cause; and when the call raises an exception of
    another kind (the UnicodeEncodeError of a token that is no Latin-1
    text) there is no result: the exception leaves the function.  No
    second call is made. *)
Theorem C2_deliver (message group_id : pyval) (tok : string) (tr : trace) :
  truthy message = true ->
  truthy group_id = true ->
  CHANNEL_ACCESS_TOKEN env = Some tok ->
  tok <> "" ->
  let req :=
    {| url := "https://api.line.me/v2/bot/message/push";
       headers := [("Content-Type", "application/json");
                   ("Authorization", "Bearer " ++ tok)];
       json := PDict [("to", group_id);
                      ("messages", PList [PDict [("type", PStr "text");
                                                 ("text", message)]])];
       timeout := Some 10 |} in
  let run := send_line_message py env net message group_id tr in
  posts (snd run) = (posts tr ++ [req])%list /\
  (forall r, net tr req = Responded r ->
             status_code r < 400 \/ 600 <= status_code r ->
             fst run = Return (send_ok group_id)) /\
  (forall r, net tr req = Responded r ->
             400 <= status_code r < 600 ->
             exists msg, raise_for_status r = Some msg /\ fst run = Return (send_failed msg)) /\
  (forall cause, net tr req = Failed cause -> fst run = Return (send_failed cause)) /\
  (forall cause, net tr req = Raised cause -> fst run = Raise (UnicodeEncodeError cause)).
Proof.
  intros _ Hg Htok Hne req run.
  assert (Ht : py_or group_id (of_env (GROUP_ID env)) = group_id)
    by (unfold py_or; now rewrite Hg).
  assert (Hk : truthy (of_env (CHANNEL_ACCESS_TOKEN env)) = true)
    by (rewrite Htok; now apply truthy_str).
  pose proof (send_line_message_posts message group_id tr) as Hrun.
  rewrite Ht in Hrun. specialize (Hrun Hg Hk). cbv zeta in Hrun.
  rewrite (push_request_with_token message group_id tok Htok) in Hrun.
  fold req in Hrun. fold run in Hrun. rewrite Hrun.
  destruct (net tr req) as [r|cause|cause] eqn:Hnet.
  - destruct (raise_for_status r) as [msg|] eqn:Hs;
      (split; [simpl; rewrite posts_app; reflexivity|]);
      (split; [|split; [|split]]); try discriminate.
    + intros r' Hr' Hsc. injection Hr' as <-.
      rewrite (raise_for_status_accepts r Hsc) in Hs. discriminate.
    + intros r' Hr' _. injection Hr' as <-. now exists msg.
    + reflexivity.
    + intros r' Hr' Hsc. injection Hr' as <-.
      destruct (raise_for_status_rejects r Hsc) as [msg Hmsg]. congruence.
  - split; [simpl; rewrite posts_app; reflexivity|].
    split; [|split; [|split]]; try discriminate.
    intros cause' Hc. now injection Hc as <-.
  - split; [simpl; rewrite posts_app; reflexivity|].
    split; [|split; [|split]]; try discriminate.
    intros cause' Hc. now injection Hc as <-.
Qed.

End Delivery.

Lemma eq_str_true (v : pyval) (lit : string) : eq_str v lit = true -> v = PStr lit.
Proof.
  destruct v; simpl; try discriminate.
  intros H. apply String.eqb_eq in H. now subst.
Qed.

Lemma eq_str_false (v : pyval) (lit : string) : v <> PStr lit -> eq_str v lit = false.
Proof.
  destruct v; simpl; try reflexivity.
  intros H. destruct (String.eqb_spec s lit); [subst; contradiction | reflexivity].
Qed.

Lemma eq_str_neq (v : pyval) (lit : string) : eq_str v lit = false -> v <> PStr lit.
Proof.
  intros H ->. simpl in H. now rewrite String.eqb_refl in H.
Qed.

Lemma truthy_of_env (x : option string) :
  truthy (of_env x) = true -> exists s, x = Some s /\ s <> "".
Proof.
  destruct x as [s|]; simpl; try discriminate.
  intros H. exists s. split; [reflexivity|].
  intros ->. discriminate H.
Qed.

Lemma logs_app (tr1 tr2 : trace) : logs (tr1 ++ tr2)%list = (logs tr1 ++ logs tr2)%list.
Proof.
  induction tr1 as [|e tr1 IH]; simpl.
  - reflexivity.
  - destruct e; simpl; now rewrite IH.
Qed.

(** ** The dispatcher, branch by branch *)

Section Routes.

Variable py : Interp.
Variable env : Credentials.
Variable net : network.

Lemma json_response_renders (content : pyval) (status_code : Z) (tr : trace) :
  surrogate_free content = true ->
  json_response py content status_code tr = (Return (JSONResponse content status_code), tr).
Proof.
  intros H. unfold json_response. now rewrite H.
Qed.

Lemma method_not_found_renders (method : pyval) :
  surrogate_free (content (method_not_found py method))
  = negb (has_surrogate (py_str py method)).
Proof.
  unfold method_not_found. cbn [content surrogate_free forallb fst snd].
  change (has_surrogate "error") with false.
  change (has_surrogate "code") with false.
  change (has_surrogate "message") with false.
  rewrite (has_surrogate_after_low "Method not found: " _ eq_refl).
  now destruct (has_surrogate (py_str py method)).
Qed.

(** The delivery branch: the result of [send_line_message] is wrapped and
    rendered; an exception on the way ends in the [except] clause. *)
Lemma deliver_cases (message target_id : pyval) (tr : trace) :
  try_except
    (result <- send_line_message py env net message target_id ;;
     json_response py (tool_content (json_dumps py false result)) 200)
    internal_error tr =
  match send_line_message py env net message target_id tr with
  | (Return result, tr') =>
      if has_surrogate (json_dumps py false result)
      then answer_500 (encode_error py (tool_content (json_dumps py false result))) tr'
      else (Return (JSONResponse (tool_content (json_dumps py false result)) 200), tr')
  | (Raise e, tr') => answer_500 (exn_str e) tr'
  end.
Proof.
  unfold try_except, bind.
  destruct (send_line_message py env net message target_id tr) as [[result|e] tr'];
    [|reflexivity].
  unfold json_response. rewrite surrogate_free_tool_content.
  destruct (has_surrogate (json_dumps py false result)); reflexivity.
Qed.

(** What the dispatcher does on each route of the table. *)
Lemma mcp_endpoint_route (body : pyval) (tr : trace) :
  mcp_endpoint py env net body tr =
  match route_of env body with
  | NotAnObject => answer_500 (no_attribute body "get") tr
  | Initialize => (Return (JSONResponse initialize_result 200), tr)
  | ToolsList => (Return (JSONResponse tools_list_result 200), tr)
  | MethodNotFound method =>
      if has_surrogate (py_str py method)
      then answer_500 (encode_error py (content (method_not_found py method))) tr
      else (Return (method_not_found py method), tr)
  | BadParams params => answer_500 (no_attribute params "get") tr
  | UnknownTool tool_name =>
      (Return (JSONResponse (tool_error py ("Unknown tool: " ++ py_str py tool_name)) 200), tr)
  | BadArguments arguments => answer_500 (no_attribute arguments "get") tr
  | MessageRequired =>
      (Return (JSONResponse (tool_error py "message parameter is required") 200), tr)
  | PersonalNotConfigured =>
      (Return (JSONResponse (tool_error py "PERSONAL_USER_ID is not configured") 200), tr)
  | Deliver message target_id =>
      try_except
        (result <- send_line_message py env net message target_id ;;
         json_response py (tool_content (json_dumps py false result)) 200)
        internal_error tr
  end.
Proof.
  destruct body as [| | | | | |b]; try reflexivity.
  unfold route_of.
  unfold mcp_endpoint, try_except at 1, bind at 1, py_get at 1, ret at 1.
  destruct (eq_str (dict_get "method" b PNone) "initialize"); [reflexivity|].
  destruct (eq_str (dict_get "method" b PNone) "tools/list"); [reflexivity|].
  destruct (eq_str (dict_get "method" b PNone) "tools/call").
  2:{ unfold json_response. rewrite method_not_found_renders.
      destruct (has_surrogate (py_str py (dict_get "method" b PNone))); reflexivity. }
  unfold tools_call, bind at 1, py_get at 1, ret at 1.
  destruct (dict_get "params" b (PDict [])) as [| | | | | |p]; try reflexivity.
  unfold bind at 1 2, py_get at 1 2, ret at 1 2.
  destruct (eq_str (dict_get "name" p PNone) "send_line_message").
  2:{ now rewrite (json_response_renders _ 200 tr (tool_error_renders py _)). }
  destruct (dict_get "arguments" p (PDict [])) as [| | | | | |a]; try reflexivity.
  unfold call_send_line_message, bind at 1 2 3 4, py_get, ret at 1 2 3 4.
  unfold route_of_arguments, resolve_target.
  destruct (negb (truthy (dict_get "message" a PNone))).
  { now rewrite (json_response_renders _ 200 tr (tool_error_renders py _)). }
  destruct (eq_str (dict_get "target" a (PStr "group")) "personal"); [|reflexivity].
  destruct (negb (truthy (py_or (dict_get "user_id" a PNone)
                                (of_env (PERSONAL_USER_ID env))))); [|reflexivity].
  cbn [content status].
  now rewrite (json_response_renders _ 200 tr (tool_error_renders py _)).
Qed.

Lemma route_of_tools_call (body : pyval) (p : list (string * pyval)) :
  call_params body = Some p ->
  route_of env body =
  if eq_str (dict_get "name" p PNone) "send_line_message" then
    match dict_get "arguments" p (PDict []) with
    | PDict a => route_of_arguments env a
    | arguments => BadArguments arguments
    end
  else UnknownTool (dict_get "name" p PNone).
Proof.
  intros H. destruct body as [| | | | | |b]; try discriminate.
  unfold call_params in H. unfold route_of.
  destruct (eq_str (dict_get "method" b PNone) "tools/call") eqn:Hm; try discriminate.
  rewrite (eq_str_true _ _ Hm).
  change (eq_str (PStr "tools/call") "initialize") with false.
  change (eq_str (PStr "tools/call") "tools/list") with false.
  change (eq_str (PStr "tools/call") "tools/call") with true.
  cbv iota.
  assert (Hp : dict_get "params" b (PDict []) = PDict p)
    by (unfold dict_get; destruct (dict_lookup "params" b) as [[]|]; congruence).
  now rewrite Hp.
Qed.

Lemma route_of_send (body : pyval) (a : list (string * pyval)) :
  send_arguments body = Some a ->
  route_of env body = route_of_arguments env a.
Proof.
  intros H. unfold send_arguments in H.
  destruct (call_params body) as [p|] eqn:Hp; try discriminate.
  rewrite (route_of_tools_call body p Hp).
  destruct (eq_str (dict_get "name" p PNone) "send_line_message"); try discriminate.
  assert (Ha : dict_get "arguments" p (PDict []) = PDict a)
    by (unfold dict_get; destruct (dict_lookup "arguments" p) as [[]|]; congruence).
  now rewrite Ha.
Qed.

(** The routes that end in the 404 reply are those of an object whose
    method is none of the three. *)
Lemma route_method_not_found (body : pyval) (m : pyval) :
  route_of env body = MethodNotFound m ->
  exists b, body = PDict b /\ m = dict_get "method" b PNone /\
            m <> PStr "initialize" /\ m <> PStr "tools/list" /\ m <> PStr "tools/call".
Proof.
  destruct body as [| | | | | |b]; try discriminate.
  unfold route_of.
  destruct (eq_str (dict_get "method" b PNone) "initialize") eqn:H1; try discriminate.
  destruct (eq_str (dict_get "method" b PNone) "tools/list") eqn:H2; try discriminate.
  destruct (eq_str (dict_get "method" b PNone) "tools/call") eqn:H3.
  - destruct (dict_get "params" b (PDict [])) as [| | | | | |p]; try discriminate.
    destruct (eq_str (dict_get "name" p PNone) "send_line_message"); try discriminate.
    destruct (dict_get "arguments" p (PDict [])) as [| | | | | |a]; try discriminate.
    unfold route_of_arguments.
    destruct (negb _); try discriminate.
    destruct (eq_str _ "personal"); try discriminate.
    destruct (negb _); discriminate.
  - intros H. injection H as <-. exists b.
    repeat split; auto using eq_str_neq.
Qed.

Lemma route_of_unknown_method (b : list (string * pyval)) :
  let m := dict_get "method" b PNone in
  m <> PStr "initialize" -> m <> PStr "tools/list" -> m <> PStr "tools/call" ->
  route_of env (PDict b) = MethodNotFound m.
Proof.
  intros m H1 H2 H3. unfold route_of. fold m.
  now rewrite (eq_str_false _ _ H1), (eq_str_false _ _ H2), (eq_str_false _ _ H3).
Qed.

(** What one call of [send_line_message] leaves in the trace. *)
Lemma send_line_message_effects (message group_id : pyval) (tr : trace) :
  let target := py_or group_id (of_env (GROUP_ID env)) in
  exists out tr',
    send_line_message py env net message group_id tr = (out, tr') /\
    ((posts tr' = posts tr /\ logs tr' = logs tr /\
      exists cause, out = Return (send_failed cause)) \/
     (truthy (of_env (CHANNEL_ACCESS_TOKEN env)) = true /\
      truthy target = true /\
      posts tr' = (posts tr ++ [push_request py env message target])%list /\
      ((logs tr' = logs tr /\ out = Return (send_ok target)) \/
       (logs tr' = logs tr /\ exists e, out = Raise e) \/
       exists cause,
         out = Return (send_failed cause) /\
         logs tr' = (logs tr ++ [delivery_error_record cause])%list))).
Proof.
  intros target.
  destruct (truthy target) eqn:Ht.
  - destruct (truthy (of_env (CHANNEL_ACCESS_TOKEN env))) eqn:Hk.
    + rewrite (send_line_message_posts py env net message group_id tr Ht Hk).
      fold target.
      destruct (net tr _) as [r|cause|cause]; [destruct (raise_for_status r) as [msg|]| |];
        eexists; eexists; (split; [reflexivity|]); right;
        (split; [reflexivity|]); (split; [reflexivity|]);
        rewrite posts_app, logs_app; simpl; rewrite ?app_nil_r;
        (split; [reflexivity|]); eauto 6.
    + rewrite (send_line_message_no_token py env net message group_id tr Ht Hk).
      eexists; eexists; (split; [reflexivity|]). left. eauto.
  - rewrite (send_line_message_no_recipient py env net message group_id tr Ht).
    eexists; eexists; (split; [reflexivity|]). left. eauto.
Qed.

(** The outbound calls of one request: none, or the one push call that
    [send_line_message] makes once the recipient and the token are there. *)
Lemma mcp_endpoint_posts (body : pyval) (tr : trace) :
  posts (snd (mcp_endpoint py env net body tr)) = posts tr \/
  (truthy (of_env (CHANNEL_ACCESS_TOKEN env)) = true /\
   exists message target_id,
     truthy target_id = true /\
     posts (snd (mcp_endpoint py env net body tr)) =
     (posts tr ++ [push_request py env message target_id])%list).
Proof.
  rewrite mcp_endpoint_route.
  destruct (route_of env body);
    try (left; unfold answer_500; simpl; rewrite ?posts_app; simpl; now rewrite ?app_nil_r).
  - left. destruct (has_surrogate _); unfold answer_500; simpl;
      rewrite ?posts_app; simpl; now rewrite ?app_nil_r.
  - rewrite deliver_cases.
    destruct (send_line_message_effects message target_id tr)
      as (out & tr' & Hrun & Heff). rewrite Hrun.
    assert (Hsame : posts (snd (match out with
                                | Return result =>
                                    if has_surrogate (json_dumps py false result)
                                    then answer_500
                                           (encode_error py
                                              (tool_content (json_dumps py false result))) tr'
                                    else (Return (JSONResponse
                                                    (tool_content (json_dumps py false result))
                                                    200), tr')
                                | Raise e => answer_500 (exn_str e) tr'
                                end)) = posts tr').
    { destruct out as [result|e]; [destruct (has_surrogate _)|]; unfold answer_500; simpl;
        rewrite ?posts_app; simpl; now rewrite ?app_nil_r. }
    rewrite Hsame.
    destruct Heff as [(Hp & _) | (Hk & Ht & Hp & _)]; [now left|].
    right. split; [exact Hk|]. eauto.
Qed.

(** C1: with the default group identifier "G1", the request
    [{method: "tools/call", params: {name: "send_line_message", arguments:
    {message: "hi", target: "group"}}}] resolves to the recipient "G1", and
    the dispatcher answers it by calling [send_line_message] with message
    "hi" and that recipient and wrapping the result; when the access token
    is set and the outbound call is answered with a status that
    [raise_for_status] accepts, the reply is HTTP 200 with the content
    array of one text element holding the JSON text of [{success: true,
    message: "Message sent successfully", group_id: "G1"}], and that call
    is the only thing done. *)
Theorem C1_group_default (tr : trace) :
  GROUP_ID env = Some "G1" ->
  resolve_target py env (PStr "group") PNone PNone = inr (PStr "G1") /\
  mcp_endpoint py env net request_hi tr =
  try_except
    (result <- send_line_message py env net (PStr "hi") (PStr "G1") ;;
     json_response py (tool_content (json_dumps py false result)) 200)
    internal_error tr
  /\
  forall (tok : string) (r : Response),
    CHANNEL_ACCESS_TOKEN env = Some tok ->
    tok <> "" ->
    net tr (push_request py env (PStr "hi") (PStr "G1")) = Responded r ->
    raise_for_status r = None ->
    mcp_endpoint py env net request_hi tr =
    (Return
       (JSONResponse
          (PDict [("content",
                   PList [PDict [("type", PStr "text");
                                 ("text",
                                  PStr (json_dumps py false
                                          (PDict [("success", PBool true);
                                                  ("message", PStr "Message sent successfully");
                                                  ("group_id", PStr "G1")])))]])])
          200),
     (tr ++ [Post (push_request py env (PStr "hi") (PStr "G1"))])%list).
Proof.
  intros HG.
  assert (Hres : resolve_target py env (PStr "group") PNone PNone = inr (PStr "G1"))
    by (unfold resolve_target; simpl; now rewrite HG).
  assert (Hroute : route_of env request_hi = Deliver (PStr "hi") (PStr "G1")).
  { rewrite (route_of_send request_hi
               [("message", PStr "hi"); ("target", PStr "group")] eq_refl).
    unfold route_of_arguments. simpl. now rewrite HG. }
  assert (Hrun : mcp_endpoint py env net request_hi tr =
                 try_except
                   (result <- send_line_message py env net (PStr "hi") (PStr "G1") ;;
                    json_response py (tool_content (json_dumps py false result)) 200)
                   internal_error tr)
    by (now rewrite mcp_endpoint_route, Hroute).
  split; [exact Hres|]. split; [exact Hrun|].
  intros tok r Htok Hne Hnet Hs.
  rewrite Hrun, deliver_cases.
  assert (Hk : truthy (of_env (CHANNEL_ACCESS_TOKEN env)) = true)
    by (rewrite Htok; now apply truthy_str).
  pose proof (send_line_message_posts py env net (PStr "hi") (PStr "G1") tr) as Hsend.
  change (py_or (PStr "G1") (of_env (GROUP_ID env))) with (PStr "G1") in Hsend.
  specialize (Hsend eq_refl Hk). cbv zeta in Hsend.
  rewrite Hnet, Hs in Hsend. rewrite Hsend. reflexivity.
Qed.

(** C6 (as amended): a [tools/call] of [send_line_message] whose
    [arguments] is absent or an object, and whose [message] argument is
    absent, empty, or any other value Python takes for false, is answered
    with HTTP 200 and the content array of one text element whose text is
    the JSON text of [{success: false, error: "message parameter is
    required"}]; nothing is sent and nothing is logged, whatever the
    network would say. *)
Theorem C6_message_required (body : pyval) (a : list (string * pyval)) (tr : trace) :
  send_arguments body = Some a ->
  truthy (dict_get "message" a PNone) = false ->
  mcp_endpoint py env net body tr =
  (Return
     (JSONResponse
        (PDict [("content",
                 PList [PDict [("type", PStr "text");
                               ("text",
                                PStr (json_dumps py true
                                        (PDict [("success", PBool false);
                                                ("error",
                                                 PStr "message parameter is required")])))]])])
        200),
   tr) /\
  json_dumps py true
    (PDict [("success", PBool false); ("error", PStr "message parameter is required")]) =
  String.concat dquote
    ["{"; "success"; ": false, "; "error"; ": "; "message parameter is required"; "}"].
Proof.
  intros Ha Hm. split; [|reflexivity].
  rewrite mcp_endpoint_route, (route_of_send body a Ha).
  unfold route_of_arguments. now rewrite Hm.
Qed.

(** C4 (as amended): a [tools/call] of [send_line_message] with a message,
    with [target] "personal", without a [user_id] argument and without a
    default personal identifier, is answered with HTTP 200 and the in-band
    failure "PERSONAL_USER_ID is not configured"; nothing is sent and nothing
    is logged. *)
Theorem C4_personal_unconfigured (body : pyval) (a : list (string * pyval)) (tr : trace) :
  send_arguments body = Some a ->
  truthy (dict_get "message" a PNone) = true ->
  dict_lookup "target" a = Some (PStr "personal") ->
  dict_lookup "user_id" a = None ->
  PERSONAL_USER_ID env = None ->
  mcp_endpoint py env net body tr =
  (Return
     (JSONResponse
        (tool_content (json_dumps py true (send_failed "PERSONAL_USER_ID is not configured")))
        200),
   tr).
Proof.
  intros Ha Hm Ht Hu Hp.
  rewrite mcp_endpoint_route, (route_of_send body a Ha).
  unfold route_of_arguments, dict_get in *. rewrite Hm, Ht, Hu, Hp. reflexivity.
Qed.

(** C10 (as amended): a [tools/call] whose [params] is absent, or is an
    object without a [name], is no protocol error: the reply is HTTP 200
    with the content array of one text element whose text is the JSON text
    of [{success: false, error: "Unknown tool: None"}], and nothing is sent
    or logged. *)
Theorem C10_unknown_tool_none (body : pyval) (p : list (string * pyval)) (tr : trace) :
  call_params body = Some p ->
  dict_lookup "name" p = None ->
  mcp_endpoint py env net body tr =
  (Return
     (JSONResponse
        (PDict [("content",
                 PList [PDict [("type", PStr "text");
                               ("text",
                                PStr (json_dumps py true
                                        (PDict [("success", PBool false);
                                                ("error", PStr "Unknown tool: None")])))]])])
        200),
   tr) /\
  json_dumps py true (PDict [("success", PBool false); ("error", PStr "Unknown tool: None")]) =
  String.concat dquote
    ["{"; "success"; ": false, "; "error"; ": "; "Unknown tool: None"; "}"].
Proof.
  intros Hp Hn. split; [|reflexivity].
  rewrite mcp_endpoint_route, (route_of_tools_call body p Hp).
  unfold dict_get. rewrite Hn. reflexivity.
Qed.

(** C7 (as amended): a request object whose [method] is none of
    "initialize", "tools/list" and "tools/call", and prints without a lone
    surrogate, is answered with HTTP 404 and the error object [{code:
    -32601, message: "Method not found: <method>"}], the method printed as
    Python prints it; a missing method prints as "None", and [{method:
    "unknown_method"}] gets the 404 with code -32601.  Nothing is sent or
    logged. *)
Theorem C7_method_not_found (b : list (string * pyval)) (tr : trace) :
  (let method := dict_get "method" b PNone in
   method <> PStr "initialize" ->
   method <> PStr "tools/list" ->
   method <> PStr "tools/call" ->
   has_surrogate (py_str py method) = false ->
   mcp_endpoint py env net (PDict b) tr =
   (Return
      (JSONResponse
         (PDict [("error",
                  PDict [("code", PInt (-32601));
                         ("message", PStr ("Method not found: " ++ py_str py method))])])
         404),
    tr))
  /\ (dict_lookup "method" b = None ->
      mcp_endpoint py env net (PDict b) tr =
      (Return
         (JSONResponse
            (PDict [("error",
                     PDict [("code", PInt (-32601));
                            ("message", PStr "Method not found: None")])])
            404),
       tr))
  /\ mcp_endpoint py env net request_unknown_method tr =
     (Return
        (JSONResponse
           (PDict [("error",
                    PDict [("code", PInt (-32601));
                           ("message", PStr "Method not found: unknown_method")])])
           404),
      tr).
Proof.
  split; [|split].
  - intros method H1 H2 H3 Hs.
    rewrite mcp_endpoint_route, (route_of_unknown_method b H1 H2 H3).
    fold method. now rewrite Hs.
  - intros Hnone.
    rewrite mcp_endpoint_route. unfold route_of, dict_get. rewrite Hnone. reflexivity.
  - reflexivity.
Qed.

(** C8: every [tools/list] request, whatever else the body holds and
    whatever happened before, gets the same reply, HTTP 200 with the one
    descriptor of [send_line_message], and leaves the trace as it was: no
    outbound call, no log record.  The descriptor's schema has the
    properties message, target, group_id and user_id, all strings, target
    with the enum group/personal, and requires message only. *)
Theorem C8_tools_list_pure (net' : network) (b1 b2 : list (string * pyval)) (tr1 tr2 : trace) :
  dict_lookup "method" b1 = Some (PStr "tools/list") ->
  dict_lookup "method" b2 = Some (PStr "tools/list") ->
  mcp_endpoint py env net (PDict b1) tr1 = (Return (JSONResponse tools_list_result 200), tr1) /\
  mcp_endpoint py env net' (PDict b2) tr2 = (Return (JSONResponse tools_list_result 200), tr2) /\
  fst (mcp_endpoint py env net (PDict b1) tr1) = fst (mcp_endpoint py env net' (PDict b2) tr2) /\
  exists tool schema,
    tools_list_result = PDict [("tools", PList [tool])] /\
    at_path ["name"] tool = Some (PStr "send_line_message") /\
    at_path ["inputSchema"] tool = Some schema /\
    option_map keys (at_path ["properties"] schema)
      = Some ["message"; "target"; "group_id"; "user_id"] /\
    at_path ["properties"; "message"; "type"] schema = Some (PStr "string") /\
    at_path ["properties"; "target"; "type"] schema = Some (PStr "string") /\
    at_path ["properties"; "target"; "enum"] schema = Some (PList [PStr "group"; PStr "personal"]) /\
    at_path ["properties"; "group_id"; "type"] schema = Some (PStr "string") /\
    at_path ["properties"; "user_id"; "type"] schema = Some (PStr "string") /\
    at_path ["required"] schema = Some (PList [PStr "message"]).
Proof.
  intros H1 H2.
  assert (E : forall n b t, dict_lookup "method" b = Some (PStr "tools/list") ->
                            mcp_endpoint py env n (PDict b) t
                            = (Return (JSONResponse tools_list_result 200), t)).
  { intros n b t H.
    unfold mcp_endpoint, try_except, bind, py_get, ret, dict_get. rewrite H. reflexivity. }
  split; [exact (E net b1 tr1 H1)|]. split; [exact (E net' b2 tr2 H2)|].
  split; [now rewrite (E net b1 tr1 H1), (E net' b2 tr2 H2)|].
  eexists; eexists. split; [reflexivity|]. repeat split; reflexivity.
Qed.

(** X1: the dispatcher answers every body, whatever it is and whatever
    the network does: no exception leaves the handler.  The status of the
    answer is 200, 404 or 500, and it is 404 exactly when the body is an
    object whose method is none of "initialize", "tools/list" and
    "tools/call" and prints without a lone surrogate. *)
Theorem X1_mcp_endpoint_always_answers (body : pyval) (tr : trace) :
  exists reply tr',
    mcp_endpoint py env net body tr = (Return reply, tr') /\
    (status reply = 200 \/ status reply = 404 \/ status reply = 500) /\
    (status reply = 404 <->
     exists b, body = PDict b /\
               dict_get "method" b PNone <> PStr "initialize" /\
               dict_get "method" b PNone <> PStr "tools/list" /\
               dict_get "method" b PNone <> PStr "tools/call" /\
               has_surrogate (py_str py (dict_get "method" b PNone)) = false).
Proof.
  rewrite mcp_endpoint_route.
  destruct (route_of env body) eqn:R;
    try rewrite deliver_cases;
    try (destruct (send_line_message py env net message target_id tr) as [[result|e] tr1]);
    try (destruct (has_surrogate _) eqn:Hs);
    unfold answer_500;
    eexists; eexists; (split; [reflexivity|]); (split; [simpl; auto|]);
    (split;
     [ intros H;
       try (simpl in H; discriminate H);
       destruct (route_method_not_found body method R) as (b & -> & -> & H1 & H2 & H3);
       exists b; auto
     | intros (b & -> & H1 & H2 & H3 & H4);
       try reflexivity;
       rewrite (route_of_unknown_method b H1 H2 H3) in R; try discriminate R;
       injection R as <-; rewrite H4 in Hs; discriminate Hs ]).
Qed.

(** X2: an HTTP 500 answer of the dispatcher is always that of its
    [except] clause: it carries the code -32603 and the message "Internal
    error: <cause>", and the last thing done before answering was to log
    the same cause at ERROR level.  At most one outbound call came before
    it. *)
Theorem X2_internal_error_logged (body : pyval) (tr tr' : trace) (reply : HttpReply) :
  mcp_endpoint py env net body tr = (Return reply, tr') ->
  status reply = 500 ->
  exists cause tr1,
    reply = internal_error_reply cause /\
    tr' = (tr1 ++ [internal_error_log cause])%list /\
    (posts tr' = posts tr \/ exists req, posts tr' = (posts tr ++ [req])%list).
Proof.
  intros Hrun Hs.
  assert (Hposts : posts tr' = posts tr \/ exists req, posts tr' = (posts tr ++ [req])%list).
  { destruct (mcp_endpoint_posts body tr) as [H | (_ & m & t & _ & H)];
      rewrite Hrun in H; simpl in H; eauto. }
  rewrite mcp_endpoint_route in Hrun.
  destruct (route_of env body);
    try rewrite deliver_cases in Hrun;
    try (destruct (send_line_message py env net message target_id tr) as [[result|e] tr1]);
    try (destruct (has_surrogate _));
    unfold answer_500 in Hrun; injection Hrun as <- <-;
    try discriminate Hs; eauto.
Qed.

(** X3: the three malformed requests.  A body that is no object, a
    [tools/call] whose [params] is given and is no object, and a call of
    [send_line_message] whose [arguments] is given and is no object are each
    answered with HTTP 500 and "Internal error: '<type>' object has no
    attribute 'get'", the type being that of the offending value. *)
Theorem X3_malformed_request (tr : trace) :
  (forall body,
     is_dict body = false ->
     mcp_endpoint py env net body tr =
     (Return (internal_error_reply (no_attribute body "get")),
      (tr ++ [internal_error_log (no_attribute body "get")])%list)) /\
  (forall b params,
     dict_lookup "method" b = Some (PStr "tools/call") ->
     dict_lookup "params" b = Some params ->
     is_dict params = false ->
     mcp_endpoint py env net (PDict b) tr =
     (Return (internal_error_reply (no_attribute params "get")),
      (tr ++ [internal_error_log (no_attribute params "get")])%list)) /\
  (forall body p arguments,
     call_params body = Some p ->
     dict_lookup "name" p = Some (PStr "send_line_message") ->
     dict_lookup "arguments" p = Some arguments ->
     is_dict arguments = false ->
     mcp_endpoint py env net body tr =
     (Return (internal_error_reply (no_attribute arguments "get")),
      (tr ++ [internal_error_log (no_attribute arguments "get")])%list)).
Proof.
  split; [|split].
  - intros body Hd. rewrite mcp_endpoint_route.
    destruct body; try reflexivity; discriminate Hd.
  - intros b params Hm Hp Hd. rewrite mcp_endpoint_route.
    unfold route_of, dict_get. rewrite Hm, Hp.
    change (eq_str (PStr "tools/call") "initialize") with false.
    change (eq_str (PStr "tools/call") "tools/list") with false.
    change (eq_str (PStr "tools/call") "tools/call") with true.
    cbv iota. destruct params; try reflexivity; discriminate Hd.
  - intros body p arguments Hp Hn Ha Hd. rewrite mcp_endpoint_route.
    rewrite (route_of_tools_call body p Hp). unfold dict_get. rewrite Hn, Ha.
    change (eq_str (PStr "send_line_message") "send_line_message") with true.
    cbv iota. destruct arguments; try reflexivity; discriminate Hd.
Qed.

(** X4: every [initialize] request, whatever else the body holds, gets the
    same answer with HTTP 200 and leaves the trace as it was; the answer
    names protocol version 2024-11-05, declares the tools capability, and
    gives the server the name and version that the root endpoint gives. *)
Theorem X4_initialize (b : list (string * pyval)) (tr : trace) :
  dict_lookup "method" b = Some (PStr "initialize") ->
  mcp_endpoint py env net (PDict b) tr = (Return (JSONResponse initialize_result 200), tr) /\
  at_path ["protocolVersion"] initialize_result = Some (PStr "2024-11-05") /\
  at_path ["capabilities"; "tools"] initialize_result = Some (PDict []) /\
  at_path ["serverInfo"; "name"] initialize_result = at_path ["name"] root /\
  at_path ["serverInfo"; "version"] initialize_result = at_path ["version"] root.
Proof.
  intros Hm. split; [|repeat split; reflexivity].
  rewrite mcp_endpoint_route. unfold route_of, dict_get. now rewrite Hm.
Qed.

(** X5: a [tools/call] that names any tool other than [send_line_message]
    is answered with HTTP 200 and the in-band failure "Unknown tool:
    <name>", the name printed as Python prints it; the [arguments] are not
    looked at, so they need not even be an object, and nothing is sent or
    logged. *)
Theorem X5_unknown_tool (body : pyval) (p : list (string * pyval)) (tr : trace) :
  call_params body = Some p ->
  dict_get "name" p PNone <> PStr "send_line_message" ->
  mcp_endpoint py env net body tr =
  (Return
     (JSONResponse
        (tool_content
           (json_dumps py true
              (send_failed ("Unknown tool: " ++ py_str py (dict_get "name" p PNone)))))
        200),
   tr).
Proof.
  intros Hp Hn. rewrite mcp_endpoint_route, (route_of_tools_call body p Hp).
  now rewrite (eq_str_false _ _ Hn).
Qed.




(** X8: when the health endpoint reports the channel token as not
    configured, the dispatcher makes no outbound call, whatever the
    request. *)
Theorem X8_no_token_no_call (body : pyval) (tr : trace) :
  at_path ["channel_token_configured"] (health_check env) = Some (PBool false) ->
  posts (snd (mcp_endpoint py env net body tr)) = posts tr.
Proof.
  intros H. simpl in H. injection H as Hk.
  destruct (mcp_endpoint_posts body tr) as [Hp | (Hk' & _)]; [exact Hp|].
  rewrite Hk in Hk'. discriminate Hk'.
Qed.

(** X9: one request makes at most one outbound call.  When it makes one,
    the access token is set and not empty, and the call is the POST to the
    push endpoint with timeout 10, the header [Authorization: Bearer
    <token>] and a body [{to: <recipient>, messages: [{type: "text", text:
    <message>}]}] whose recipient is not empty.  The reply endpoint is never
    called from here. *)
Theorem X9_at_most_one_push (body : pyval) (tr : trace) :
  posts (snd (mcp_endpoint py env net body tr)) = posts tr \/
  exists tok message target_id,
    CHANNEL_ACCESS_TOKEN env = Some tok /\
    tok <> "" /\
    truthy target_id = true /\
    posts (snd (mcp_endpoint py env net body tr)) =
    (posts tr ++
     [{| url := "https://api.line.me/v2/bot/message/push";
         headers := [("Content-Type", "application/json");
                     ("Authorization", ("Bearer " ++ tok)%string)];
         json := PDict [("to", target_id);
                        ("messages", PList [PDict [("type", PStr "text");
                                                   ("text", message)]])];
         timeout := Some 10 |}])%list.
Proof.
  destruct (mcp_endpoint_posts body tr) as [Hp | (Hk & message & target_id & Ht & Hp)];
    [now left|].
  right. destruct (truthy_of_env _ Hk) as (tok & Htok & Hne).
  exists tok, message, target_id. repeat (split; [assumption|]).
  rewrite Hp. unfold push_request, bearer. now rewrite Htok.
Qed.

(** X10: every answer to a [tools/call] request has status 200 or 500,
    and an HTTP 200 answer is always the one envelope of tool results: a
    content array of one text element, whose text is the JSON text of an
    object with a boolean [success]. *)
Theorem X10_tool_result_envelope (b : list (string * pyval)) (tr : trace) :
  dict_lookup "method" b = Some (PStr "tools/call") ->
  exists reply tr',
    mcp_endpoint py env net (PDict b) tr = (Return reply, tr') /\
    (status reply = 500 \/
     (status reply = 200 /\
      exists ensure_ascii result flag,
        content reply =
        PDict [("content",
                PList [PDict [("type", PStr "text");
                              ("text", PStr (json_dumps py ensure_ascii result))]])] /\
        at_path ["success"] result = Some (PBool flag))).
Proof.
  intros Hm. rewrite mcp_endpoint_route.
  unfold route_of, dict_get at 1 2 3. rewrite Hm.
  change (eq_str (PStr "tools/call") "initialize") with false.
  change (eq_str (PStr "tools/call") "tools/list") with false.
  change (eq_str (PStr "tools/call") "tools/call") with true.
  cbv iota.
  destruct (dict_get "params" b (PDict [])) as [| | | | | |p];
    try (eexists; eexists; split; [reflexivity|]; now left).
  destruct (eq_str (dict_get "name" p PNone) "send_line_message").
  2:{ eexists; eexists; split; [reflexivity|]. right. split; [reflexivity|].
      eexists; eexists; eexists. split; reflexivity. }
  destruct (dict_get "arguments" p (PDict [])) as [| | | | | |a];
    try (eexists; eexists; split; [reflexivity|]; now left).
  unfold route_of_arguments.
  destruct (negb (truthy (dict_get "message" a PNone))).
  { eexists; eexists; split; [reflexivity|]. right. split; [reflexivity|].
    eexists; eexists; eexists. split; reflexivity. }
  destruct (eq_str (dict_get "target" a (PStr "group")) "personal");
    [destruct (negb _);
     [eexists; eexists; split; [reflexivity|]; right; split; [reflexivity|];
      eexists; eexists; eexists; split; reflexivity|]|];
    rewrite deliver_cases;
    match goal with
    | |- context [send_line_message py env net ?m ?t tr] =>
        destruct (send_line_message_effects m t tr) as (out & tr' & Hrun & Heff);
        rewrite Hrun;
        destruct out as [result|e];
        [destruct (has_surrogate (json_dumps py false result))|];
        try (eexists; eexists; split; [reflexivity|]; now left);
        eexists; eexists; split; [reflexivity|]; right; split; [reflexivity|];
        assert (Hflag : exists flag, at_path ["success"] result = Some (PBool flag))
          by (destruct Heff as [(_ & _ & c & Hc) | (_ & _ & _ & [(_ & Hc) | [(_ & e' & Hc) | (c & Hc & _)]])];
              try discriminate Hc; injection Hc as ->; cbn; eauto);
        destruct Hflag as [flag Hflag];
        exists false, result, flag; split; [reflexivity | exact Hflag]
    end.
Qed.

(** X11: [send_line_message] called without a recipient (None, or the
    empty string) falls back on the default group identifier: with that
    identifier and the access token set, it makes the one push call to the
    default group, and on an answer that [raise_for_status] accepts the
    result names the default group as the recipient used. *)
Theorem X11_default_recipient (message group_id : pyval) (g tok : string) (tr : trace) :
  truthy group_id = false ->
  GROUP_ID env = Some g ->
  g <> "" ->
  CHANNEL_ACCESS_TOKEN env = Some tok ->
  tok <> "" ->
  let req :=
    {| url := "https://api.line.me/v2/bot/message/push";
       headers := [("Content-Type", "application/json");
                   ("Authorization", "Bearer " ++ tok)];
       json := PDict [("to", PStr g);
                      ("messages", PList [PDict [("type", PStr "text");
                                                 ("text", message)]])];
       timeout := Some 10 |} in
  let run := send_line_message py env net message group_id tr in
  posts (snd run) = (posts tr ++ [req])%list /\
  (forall r, net tr req = Responded r -> raise_for_status r = None ->
             run = (Return (send_ok (PStr g)), (tr ++ [Post req])%list)).
Proof.
  intros Hg HG Hne Htok Htne req run.
  assert (Hor : py_or group_id (of_env (GROUP_ID env)) = PStr g)
    by (unfold py_or; now rewrite Hg, HG).
  assert (Ht : truthy (py_or group_id (of_env (GROUP_ID env))) = true)
    by (rewrite Hor; now apply truthy_str).
  assert (Hk : truthy (of_env (CHANNEL_ACCESS_TOKEN env)) = true)
    by (rewrite Htok; now apply truthy_str).
  pose proof (send_line_message_posts py env net message group_id tr Ht Hk) as Hrun.
  cbv zeta in Hrun.
  rewrite Hor, (push_request_with_token py env message (PStr g) tok Htok) in Hrun.
  fold req in Hrun. fold run in Hrun. rewrite Hrun.
  destruct (net tr req) as [r|cause|cause] eqn:Hnet.
  - destruct (raise_for_status r) as [msg|] eqn:Hs;
      (split; [simpl; rewrite posts_app; reflexivity|]);
      intros r' Hr' Hs'; injection Hr' as <-.
    + rewrite Hs in Hs'. discriminate Hs'.
    + reflexivity.
  - split; [simpl; rewrite posts_app; reflexivity|]. intros r' Hr'. discriminate Hr'.
  - split; [simpl; rewrite posts_app; reflexivity|]. intros r' Hr'. discriminate Hr'.
Qed.


End Routes.

(** ** The webhook, event by event *)

Lemma bind_returns {A B : Type} (c : M A) (k : A -> M B) (tr tr' : trace) (b : B) :
  bind c k tr = (Return b, tr') ->
  exists a tr1, c tr = (Return a, tr1) /\ k a tr1 = (Return b, tr').
Proof.
  unfold bind. destruct (c tr) as [[a|e] tr1]; intros H; [eauto | discriminate H].
Qed.

Lemma path_get_key (k : string) (e : list (string * pyval)) (d : pyval) :
  path_get [k] (PDict e) d = dict_get k e d.
Proof.
  unfold path_get, dict_get. simpl. now destruct (dict_lookup k e).
Qed.

Lemma path_get_nested (k1 k2 : string) (e items : list (string * pyval)) (d : pyval) :
  dict_get k1 e (PDict []) = PDict items ->
  path_get [k1; k2] (PDict e) d = dict_get k2 items d.
Proof.
  unfold path_get, dict_get. simpl. intros H.
  destruct (dict_lookup k1 e) as [w|].
  - subst w. now destruct (dict_lookup k2 items).
  - injection H as <-. reflexivity.
Qed.


Lemma well_formed_passes (event : pyval) :
  well_formed_event event = true -> event_passes event = true.
Proof.
  destruct event as [| | | | | |e]; try discriminate. simpl. intros H.
  apply andb_prop in H as [Hs Hm]. unfold dict_get.
  destruct (eq_str _ "message"); [|reflexivity].
  destruct (dict_lookup "source" e) as [[]|]; try discriminate Hs;
    (destruct (dict_lookup "message" e) as [[| | | | | |m]|]; try discriminate Hm;
     [destruct (dict_lookup "text" m) as [[]|]; try discriminate Hm|];
     apply orb_true_r).
Qed.

Section WebhookEdges.

Variable py : Interp.
Variable env : Credentials.
Variable net : network.

(** The handler around the loop over a list of events. *)
Lemma webhook_of_loop (b : list (string * pyval)) (events : list pyval) (tr : trace) :
  dict_get "events" b (PList []) = PList events ->
  webhook py env net (PDict b) tr =
  match for_each events (webhook_event py env net)
                 (tr ++ [webhook_received py (PDict b)])%list with
  | (Return _, tr') => (Return status_ok, tr')
  | (Raise e, tr') =>
      (Return (webhook_error_reply (exn_str e)),
       (tr' ++ [webhook_error_log (exn_str e)])%list)
  end.
Proof.
  intros Hev. unfold webhook, try_except, bind, py_get, py_iter, ret, logger.
  rewrite Hev. cbv beta iota. unfold webhook_received.
  destruct (for_each events _ _) as [[[]|e] tr']; reflexivity.
Qed.

(** An event that stops the loop, after the events before it. *)
Lemma for_each_stops (pre rest : list pyval) (bad : pyval) (e : exn) (tr tr1 tr2 : trace) :
  for_each pre (webhook_event py env net) tr = (Return tt, tr1) ->
  webhook_event py env net bad tr1 = (Raise e, tr2) ->
  for_each (pre ++ bad :: rest) (webhook_event py env net) tr = (Raise e, tr2).
Proof.
  revert tr. induction pre as [|ev pre IH]; intros tr Hpre Hbad; simpl in *.
  - injection Hpre as <-. unfold bind. now rewrite Hbad.
  - unfold bind in *. destruct (webhook_event py env net ev tr) as [[[]|e'] tr0];
      [now apply IH | discriminate Hpre].
Qed.

(** One event that passes, under any network: the records it writes,
    then the reply call when the auto-reply rule asks for one. *)
Lemma webhook_event_passes (event : pyval) (tr : trace) :
  event_passes event = true ->
  let tr1 := (tr ++ records (event_logs py event))%list in
  webhook_event py env net event tr =
  match auto_reply py env event with
  | [] => (Return tt, tr1)
  | req :: _ =>
      match net tr1 req with
      | Responded _ => (Return tt, (tr1 ++ [Post req])%list)
      | Failed cause => (Raise (RequestException cause), (tr1 ++ [Post req])%list)
      | Raised cause => (Raise (UnicodeEncodeError cause), (tr1 ++ [Post req])%list)
      end
  end.
Proof.
  intros Hp. destruct event as [| | | | |l|e]; try discriminate.
  unfold event_passes in Hp. unfold auto_reply, event_logs.
  rewrite !path_get_key.
  unfold webhook_event, py_lower, bind, py_get, ret, logger.
  destruct (eq_str (dict_get "type" e PNone) "message").
  2:{ simpl. now rewrite app_nil_r. }
  destruct (dict_get "source" e (PDict [])) as [| | | | | |src] eqn:Hs; try discriminate Hp.
  destruct (dict_get "message" e (PDict [])) as [| | | | | |m] eqn:Hm; try discriminate Hp.
  rewrite !(path_get_nested _ _ _ _ _ Hs), !(path_get_nested _ _ _ _ _ Hm).
  cbv beta iota.
  destruct (truthy (dict_get "userId" src PNone)).
  - simpl in Hp.
    destruct (dict_get "text" m (PStr "")) as [| | | |s| |]; try discriminate Hp.
    destruct (truthy (dict_get "groupId" src PNone));
      (destruct (contains "userid" (str_lower s));
       [destruct (truthy (dict_get "replyToken" e PNone))|]);
      cbv beta iota; simpl andb; cbv iota; unfold records; simpl map;
      try unfold requests_post; cbv beta iota;
      rewrite <- ?app_assoc; simpl app;
      try match goal with
          | |- context [net ?t ?q] => destruct (net t q)
          end;
      rewrite <- ?app_assoc; reflexivity.
  - destruct (truthy (dict_get "groupId" src PNone));
      cbv beta iota; simpl andb; cbv iota; unfold records; simpl map;
      rewrite <- ?app_assoc; reflexivity.
Qed.

Lemma webhook_event_run (event : pyval) (tr : trace) :
  well_formed_event event = true ->
  let tr1 := (tr ++ records (event_logs py event))%list in
  webhook_event py env net event tr =
  match auto_reply py env event with
  | [] => (Return tt, tr1)
  | req :: _ =>
      match net tr1 req with
      | Responded _ => (Return tt, (tr1 ++ [Post req])%list)
      | Failed cause => (Raise (RequestException cause), (tr1 ++ [Post req])%list)
      | Raised cause => (Raise (UnicodeEncodeError cause), (tr1 ++ [Post req])%list)
      end
  end.
Proof.
  intros Hwf. apply webhook_event_passes. now apply well_formed_passes.
Qed.


Lemma logs_records (l : list (level * string)) : logs (records l) = l.
Proof.
  induction l as [|[lv text] l IH]; simpl; [reflexivity | now rewrite IH].
Qed.

Lemma posts_records (l : list (level * string)) : posts (records l) = [].
Proof.
  induction l as [|[lv text] l IH]; simpl; [reflexivity | exact IH].
Qed.

Lemma webhook_event_not_object (bad : pyval) (tr : trace) :
  is_dict bad = false ->
  webhook_event py env net bad tr = (Raise (AttributeError (no_attribute bad "get")), tr).
Proof.
  intros Hd. destruct bad; try reflexivity; discriminate Hd.
Qed.

Lemma webhook_event_skipped (event : pyval) (tr : trace) :
  skipped_event event = true ->
  webhook_event py env net event tr = (Return tt, tr).
Proof.
  intros Hs. destruct event as [| | | | | |e]; try discriminate Hs.
  simpl in Hs. apply negb_true_iff in Hs.
  unfold webhook_event, bind, py_get, ret. now rewrite Hs.
Qed.

Lemma utf8_split_not_empty (s cur : string) (pending : nat) :
  s <> "" \/ cur <> "" -> utf8_split pending cur s <> [].
Proof.
  revert cur pending. induction s as [|c r IH]; intros cur pending H; simpl.
  - destruct H as [H|H]; [contradiction|]. destruct cur; [contradiction|discriminate].
  - destruct pending as [|[|k]].
    + destruct (utf8_len (byte c)) as [|[|n]]; try discriminate.
      * apply IH. right. discriminate.
      * apply IH. right. discriminate.
    + discriminate.
    + apply IH. right. destruct cur; discriminate.
Qed.

(** X13: the webhook answers every body, whatever it is and whatever the
    network does: either [{status: "ok"}] with HTTP 200, or HTTP 500 with
    [{status: "error", message: <cause>}], in which case the last thing
    done was to log that cause at ERROR level. *)
Theorem X13_webhook_always_answers (body : pyval) (tr : trace) :
  exists reply tr',
    webhook py env net body tr = (Return reply, tr') /\
    (reply = status_ok \/
     exists cause tr1,
       reply = webhook_error_reply cause /\
       tr' = (tr1 ++ [webhook_error_log cause])%list).
Proof.
  unfold webhook, try_except.
  match goal with
  | |- context [let (_, _) := ?c tr in _] => destruct (c tr) as [[reply|e] tr1] eqn:Hrun
  end.
  - exists reply, tr1. split; [reflexivity|]. left.
    apply bind_returns in Hrun as (? & ? & _ & Hrun).
    apply bind_returns in Hrun as (? & ? & _ & Hrun).
    apply bind_returns in Hrun as (? & ? & _ & Hrun).
    apply bind_returns in Hrun as (? & ? & _ & Hrun).
    cbv in Hrun. now injection Hrun as <- _.
  - eexists; eexists. split; [reflexivity|]. right.
    exists (exn_str e), tr1. split; reflexivity.
Qed.

(** X14: what the webhook does with a body it cannot walk.  A body that
    is no object, an [events] that is neither list, dict nor str, and an
    [events] that is a dict with an item or a str with a character (the
    loop then visits strings) are each answered with HTTP 500 and the
    message of the Python error; the body is logged first, the error after
    it, and no outbound call is made. *)
Theorem X14_webhook_unreadable_body (tr : trace) :
  (forall body,
     is_dict body = false ->
     webhook py env net body tr =
     (Return (webhook_error_reply (no_attribute body "get")),
      (tr ++ [webhook_received py body;
              webhook_error_log (no_attribute body "get")])%list)) /\
  (forall b events,
     dict_lookup "events" b = Some events ->
     iterable events = false ->
     webhook py env net (PDict b) tr =
     (Return (webhook_error_reply (not_iterable events)),
      (tr ++ [webhook_received py (PDict b);
              webhook_error_log (not_iterable events)])%list)) /\
  (forall b events,
     dict_lookup "events" b = Some events ->
     (exists k v items, events = PDict ((k, v) :: items)) \/
     (exists s, events = PStr s /\ s <> "") ->
     webhook py env net (PDict b) tr =
     (Return (webhook_error_reply "'str' object has no attribute 'get'"),
      (tr ++ [webhook_received py (PDict b);
              webhook_error_log "'str' object has no attribute 'get'"])%list)).
Proof.
  split; [|split].
  - intros body Hd.
    destruct body; try discriminate Hd;
      unfold webhook, try_except, bind, logger, ret; simpl;
      now rewrite <- app_assoc.
  - intros b events Hev Hi.
    unfold webhook, try_except, bind, py_get, logger, ret, dict_get. rewrite Hev.
    destruct events; try discriminate Hi; simpl; now rewrite <- app_assoc.
  - intros b events Hev Hshape.
    unfold webhook, try_except, bind, py_get, logger, ret, dict_get. rewrite Hev.
    destruct Hshape as [(k & v & items & ->) | (s & -> & Hs)].
    + simpl. now rewrite <- app_assoc.
    + unfold py_iter, ret, utf8_chars.
      destruct (utf8_split 0 "" s) as [|ch chs] eqn:Hsplit.
      * exfalso. apply (utf8_split_not_empty s "" 0); auto.
      * simpl. now rewrite <- app_assoc.
Qed.

Lemma for_each_replies (Hnet : always_answers net) (events : list pyval) (tr : trace) :
  forallb well_formed_event events = true ->
  exists tr',
    for_each events (webhook_event py env net) tr = (Return tt, tr') /\
    posts tr' = (posts tr ++ flat_map (auto_reply py env) events)%list.
Proof.
  revert tr. induction events as [|ev events IH]; intros tr Hwf.
  - exists tr. simpl. split; [reflexivity | now rewrite app_nil_r].
  - simpl in Hwf. apply andb_prop in Hwf as [Hev Hrest].
    pose proof (webhook_event_run ev tr Hev) as Hrun. cbv zeta in Hrun.
    simpl flat_map. simpl for_each. unfold bind. rewrite Hrun.
    destruct (auto_reply py env ev) as [|req reqs] eqn:Hreply.
    + destruct (IH (tr ++ records (event_logs py ev))%list Hrest) as (tr' & H1 & H2).
      exists tr'. split; [exact H1|].
      rewrite H2, posts_app, posts_records. now rewrite app_nil_r.
    + assert (Hone : reqs = []).
      { unfold auto_reply in Hreply. destruct (_ && _) in Hreply; [|discriminate Hreply].
        now injection Hreply as _ <-. }
      subst reqs.
      destruct (Hnet (tr ++ records (event_logs py ev))%list req) as [r Hr]. rewrite Hr.
      destruct (IH ((tr ++ records (event_logs py ev)) ++ [Post req])%list Hrest)
        as (tr' & H1 & H2).
      exists tr'. split; [exact H1|].
      rewrite H2, !posts_app, posts_records, app_nil_r. simpl. now rewrite <- app_assoc.
Qed.

Lemma for_each_skipped (events : list pyval) (tr : trace) :
  forallb skipped_event events = true ->
  for_each events (webhook_event py env net) tr = (Return tt, tr).
Proof.
  induction events as [|ev events IH]; intros H; simpl in *; [reflexivity|].
  apply andb_prop in H as [Hev Hrest].
  unfold bind. rewrite (webhook_event_skipped ev tr Hev). now apply IH.
Qed.

(** X15: events whose type is not "message" are passed over, whatever
    else they hold: when every event is such an object (or there is no
    event, or no [events] at all), the webhook answers [{status: "ok"}]
    and has done nothing but log the body, under any network. *)
Theorem X15_webhook_skips_other_events
        (b : list (string * pyval)) (events : list pyval) (tr : trace) :
  dict_get "events" b (PList []) = PList events ->
  forallb skipped_event events = true ->
  webhook py env net (PDict b) tr =
  (Return status_ok, (tr ++ [webhook_received py (PDict b)])%list).
Proof.
  intros Hev Hskip. rewrite (webhook_of_loop b events tr Hev).
  now rewrite (for_each_skipped events _ Hskip).
Qed.

(** X16: an event that is no object stops the webhook.  With well-formed
    events before it and a network that answers, the replies to those
    events have been sent, the events after it are not looked at, and the
    answer is HTTP 500 with "'<type>' object has no attribute 'get'". *)
Theorem X16_webhook_stops_at_non_object
        (b : list (string * pyval)) (pre rest : list pyval) (bad : pyval) (tr : trace) :
  always_answers net ->
  dict_get "events" b (PList []) = PList (pre ++ bad :: rest) ->
  forallb well_formed_event pre = true ->
  is_dict bad = false ->
  exists tr',
    webhook py env net (PDict b) tr =
    (Return (webhook_error_reply (no_attribute bad "get")), tr') /\
    posts tr' = (posts tr ++ flat_map (auto_reply py env) pre)%list.
Proof.
  intros Hnet Hev Hwf Hd. rewrite (webhook_of_loop b _ tr Hev).
  destruct (for_each_replies Hnet pre
              (tr ++ [webhook_received py (PDict b)])%list Hwf)
    as (tr1 & Hpre & Hposts).
  rewrite (for_each_stops pre rest bad _ _ tr1 tr1 Hpre
             (webhook_event_not_object bad tr1 Hd)).
  eexists. split; [reflexivity|].
  rewrite posts_app, Hposts, posts_app. simpl. now rewrite !app_nil_r.
Qed.

Lemma webhook_event_bad_text
      (e src m : list (string * pyval)) (tr : trace) :
  eq_str (dict_get "type" e PNone) "message" = true ->
  dict_get "source" e (PDict []) = PDict src ->
  truthy (dict_get "userId" src PNone) = true ->
  dict_get "message" e (PDict []) = PDict m ->
  is_str (dict_get "text" m (PStr "")) = false ->
  exists tr',
    webhook_event py env net (PDict e) tr =
    (Raise (AttributeError (no_attribute (dict_get "text" m (PStr "")) "lower")), tr') /\
    posts tr' = posts tr.
Proof.
  intros Hty Hs Hu Hm Ht.
  unfold webhook_event, py_lower, bind, py_get, ret, logger.
  rewrite Hty, Hs, Hm, Hu. cbv beta iota.
  destruct (truthy (dict_get "groupId" src PNone));
    destruct (dict_get "text" m (PStr "")); try discriminate Ht;
    (eexists; split; [reflexivity|]; rewrite !posts_app; simpl; now rewrite ?app_nil_r).
Qed.

(** X17: a message event from a known sender whose text is not a string
    stops the webhook at [.lower()].  With well-formed events before it and
    a network that answers, the replies to those events have been sent, no
    reply is sent for this event or any after it, and the answer is HTTP
    500 with "'<type>' object has no attribute 'lower'". *)
Theorem X17_webhook_stops_at_bad_text
        (b e src m : list (string * pyval)) (pre rest : list pyval) (tr : trace) :
  always_answers net ->
  dict_get "events" b (PList []) = PList (pre ++ PDict e :: rest) ->
  forallb well_formed_event pre = true ->
  dict_lookup "type" e = Some (PStr "message") ->
  dict_get "source" e (PDict []) = PDict src ->
  truthy (dict_get "userId" src PNone) = true ->
  dict_get "message" e (PDict []) = PDict m ->
  is_str (dict_get "text" m (PStr "")) = false ->
  exists tr',
    webhook py env net (PDict b) tr =
    (Return (webhook_error_reply (no_attribute (dict_get "text" m (PStr "")) "lower")), tr') /\
    posts tr' = (posts tr ++ flat_map (auto_reply py env) pre)%list.
Proof.
  intros Hnet Hev Hwf Hty Hs Hu Hm Ht. rewrite (webhook_of_loop b _ tr Hev).
  destruct (for_each_replies Hnet pre
              (tr ++ [webhook_received py (PDict b)])%list Hwf)
    as (tr1 & Hpre & Hposts).
  assert (Hty' : eq_str (dict_get "type" e PNone) "message" = true)
    by (unfold dict_get; now rewrite Hty).
  destruct (webhook_event_bad_text e src m tr1 Hty' Hs Hu Hm Ht) as (tr2 & Hbad & Hp2).
  rewrite (for_each_stops pre rest (PDict e) _ _ tr1 tr2 Hpre Hbad).
  eexists. split; [reflexivity|].
  rewrite posts_app, Hp2, Hposts, posts_app. simpl. now rewrite !app_nil_r.
Qed.

Lemma for_each_failing (cause : string) (events : list pyval) (tr : trace) :
  always_fails net cause ->
  forallb well_formed_event events = true ->
  exists tr',
    match flat_map (auto_reply py env) events with
    | [] =>
        for_each events (webhook_event py env net) tr = (Return tt, tr') /\
        posts tr' = posts tr
    | req :: _ =>
        for_each events (webhook_event py env net) tr =
        (Raise (RequestException cause), tr') /\
        posts tr' = (posts tr ++ [req])%list
    end.
Proof.
  intros Hnet. revert tr. induction events as [|ev events IH]; intros tr Hwf.
  - exists tr. simpl. split; reflexivity.
  - simpl in Hwf. apply andb_prop in Hwf as [Hev Hrest].
    pose proof (webhook_event_run ev tr Hev) as Hrun. cbv zeta in Hrun.
    simpl flat_map. simpl for_each. unfold bind. rewrite Hrun.
    destruct (auto_reply py env ev) as [|req reqs].
    + destruct (IH (tr ++ records (event_logs py ev))%list Hrest) as (tr' & H).
      exists tr'. simpl app.
      destruct (flat_map (auto_reply py env) events);
        destruct H as [H1 H2]; (split; [exact H1|]);
        rewrite H2, posts_app, posts_records; now rewrite app_nil_r.
    + rewrite Hnet. eexists. simpl app. split; [reflexivity|].
      rewrite !posts_app, posts_records. simpl. now rewrite app_nil_r.
Qed.

(** X18: under a network that fails every call, the webhook tries at most
    one reply.  For well-formed events: when no event asks for a reply the
    answer is [{status: "ok"}] and no call was made; otherwise the reply to
    the first such event is the only call made, and the answer is HTTP 500
    with the cause of the failure as its message. *)
Theorem X18_webhook_failing_network
        (cause : string) (b : list (string * pyval)) (events : list pyval) (tr : trace) :
  always_fails net cause ->
  dict_get "events" b (PList []) = PList events ->
  forallb well_formed_event events = true ->
  exists tr',
    match flat_map (auto_reply py env) events with
    | [] =>
        webhook py env net (PDict b) tr = (Return status_ok, tr') /\
        posts tr' = posts tr
    | req :: _ =>
        webhook py env net (PDict b) tr = (Return (webhook_error_reply cause), tr') /\
        posts tr' = (posts tr ++ [req])%list
    end.
Proof.
  intros Hnet Hev Hwf. rewrite (webhook_of_loop b events tr Hev).
  destruct (for_each_failing cause events
              (tr ++ [webhook_received py (PDict b)])%list Hnet Hwf) as (tr1 & H).
  destruct (flat_map (auto_reply py env) events) as [|req reqs];
    destruct H as [Hrun Hposts]; rewrite Hrun.
  - exists tr1. split; [reflexivity|].
    rewrite Hposts, posts_app. simpl. now rewrite app_nil_r.
  - eexists. split; [reflexivity|].
    rewrite posts_app, Hposts, posts_app. simpl. now rewrite !app_nil_r.
Qed.

Lemma for_each_logs (events : list pyval) (tr : trace) :
  always_answers net ->
  forallb well_formed_event events = true ->
  exists tr',
    for_each events (webhook_event py env net) tr = (Return tt, tr') /\
    logs tr' = (logs tr ++ flat_map (event_logs py) events)%list.
Proof.
  intros Hnet. revert tr. induction events as [|ev events IH]; intros tr Hwf.
  - exists tr. simpl. split; [reflexivity | now rewrite app_nil_r].
  - simpl in Hwf. apply andb_prop in Hwf as [Hev Hrest].
    pose proof (webhook_event_run ev tr Hev) as Hrun. cbv zeta in Hrun.
    simpl flat_map. simpl for_each. unfold bind. rewrite Hrun.
    destruct (auto_reply py env ev) as [|req reqs].
    + destruct (IH (tr ++ records (event_logs py ev))%list Hrest) as (tr' & H1 & H2).
      exists tr'. split; [exact H1|].
      rewrite H2, logs_app, logs_records. now rewrite app_assoc.
    + destruct (Hnet (tr ++ records (event_logs py ev))%list req) as [r Hr]. rewrite Hr.
      destruct (IH ((tr ++ records (event_logs py ev)) ++ [Post req])%list Hrest)
        as (tr' & H1 & H2).
      exists tr'. split; [exact H1|].
      rewrite H2, !logs_app, logs_records. simpl. now rewrite app_nil_r, app_assoc.
Qed.

(** X19: what the webhook logs.  For well-formed events and a network
    that answers, the records written are the body as JSON text, then for
    each message event, in order, a banner, "User ID: <userId>", "Group
    ID: <groupId>" when the event has a group, "Message: <text>" and the
    closing banner; other events leave no record, and no ERROR record is
    written. *)
Theorem X19_webhook_log_records
        (b : list (string * pyval)) (events : list pyval) (tr : trace) :
  always_answers net ->
  dict_get "events" b (PList []) = PList events ->
  forallb well_formed_event events = true ->
  exists tr',
    webhook py env net (PDict b) tr = (Return status_ok, tr') /\
    logs tr' =
    (logs tr ++ logs [webhook_received py (PDict b)] ++ flat_map (event_logs py) events)%list /\
    Forall (fun r => fst r = INFO)
           (logs [webhook_received py (PDict b)] ++ flat_map (event_logs py) events)%list.
Proof.
  intros Hnet Hev Hwf. rewrite (webhook_of_loop b events tr Hev).
  destruct (for_each_logs events (tr ++ [webhook_received py (PDict b)])%list Hnet Hwf)
    as (tr' & Hrun & Hlogs).
  rewrite Hrun. exists tr'. split; [reflexivity|]. split.
  - rewrite Hlogs, logs_app. now rewrite <- app_assoc.
  - apply Forall_app. split; [repeat constructor|].
    apply Forall_flat_map. apply Forall_forall. intros ev _.
    unfold event_logs. destruct (eq_str _ "message"); [|constructor].
    destruct (truthy _); repeat constructor.
Qed.

(** X20: the start of the process and the health endpoint agree.  The
    start never fails and makes no outbound call; it writes one WARNING for
    each variable that the health endpoint reports as not configured, in
    the order token, group, personal, and nothing else. *)
Theorem X20_startup_matches_health (tr : trace) :
  startup env tr =
  (Return tt,
   (tr ++ records (map (fun check => (WARNING, snd check))
                       (filter (reported_missing (health_check env)) startup_checks)))%list).
Proof.
  unfold startup, bind, logger, ret, reported_missing, startup_checks, health_check.
  simpl filter.
  destruct (truthy (of_env (CHANNEL_ACCESS_TOKEN env)));
    destruct (truthy (of_env (GROUP_ID env)));
    destruct (truthy (of_env (PERSONAL_USER_ID env)));
    simpl; rewrite <- ?app_assoc, ?app_nil_r; reflexivity.
Qed.





End WebhookEdges.

(** ** The statements at sample inputs *)

Lemma net_ok_answers : always_answers net_ok.
Proof.
  intros tr req. eexists. reflexivity.
Qed.

Lemma net_fails_always : always_fails net_fails "connection refused".
Proof.
  intros tr req. reflexivity.
Qed.

Lemma C1_witness :
  GROUP_ID env_full = Some "G1" /\
  mcp_endpoint sample_interp env_full net_ok request_hi [] =
  (Return
     (JSONResponse
        (tool_content (json_dumps sample_interp false (send_ok (PStr "G1")))) 200),
   [Post (push_request sample_interp env_full (PStr "hi") (PStr "G1"))]).
Proof.
  split; [reflexivity|].
  apply (proj2 (proj2 (C1_group_default sample_interp env_full net_ok [] eq_refl)) "tok"
               {| status_code := 200; reason := "OK";
                  final_url := "https://api.line.me/v2/bot/message/push" |});
    [reflexivity | discriminate | reflexivity | reflexivity].
Defined.

Lemma C2_witness :
  truthy (PStr "hi") = true /\
  truthy (PStr "G1") = true /\
  CHANNEL_ACCESS_TOKEN env_full = Some "tok" /\
  "tok" <> "" /\
  posts (snd (send_line_message sample_interp env_full net_ok (PStr "hi") (PStr "G1") [])) =
  [push_request sample_interp env_full (PStr "hi") (PStr "G1")] /\
  fst (send_line_message sample_interp env_full net_ok (PStr "hi") (PStr "G1") []) =
  Return (send_ok (PStr "G1")).
Proof.
  split; [reflexivity|]. split; [reflexivity|]. split; [reflexivity|].
  split; [discriminate|].
  destruct (C2_deliver sample_interp env_full net_ok (PStr "hi") (PStr "G1") "tok" []
              eq_refl eq_refl eq_refl ltac:(discriminate))
    as (Hposts & Hok & _ & _).
  split; [exact Hposts|].
  apply (Hok {| status_code := 200; reason := "OK";
                final_url := "https://api.line.me/v2/bot/message/push" |});
    [reflexivity | simpl; lia].
Defined.

Lemma C3_witness :
  (truthy (py_or PNone (of_env (GROUP_ID env_empty))) = false /\
   send_line_message sample_interp env_empty net_ok (PStr "hi") PNone [] =
   (Return (send_failed "GROUP_ID is not configured"), [])) /\
  (truthy (py_or PNone (of_env (GROUP_ID env_no_token))) = true /\
   truthy (of_env (CHANNEL_ACCESS_TOKEN env_no_token)) = false /\
   send_line_message sample_interp env_no_token net_ok (PStr "hi") PNone [] =
   (Return (send_failed "CHANNEL_ACCESS_TOKEN is not configured"), [])).
Proof.
  split.
  - split; [reflexivity|].
    apply (proj1 (C3_fail_fast sample_interp env_empty net_ok (PStr "hi") PNone [])).
    reflexivity.
  - split; [reflexivity|]. split; [reflexivity|].
    apply (proj2 (C3_fail_fast sample_interp env_no_token net_ok (PStr "hi") PNone []));
      reflexivity.
Defined.

Lemma C4_witness :
  send_arguments request_personal
    = Some [("message", PStr "hi"); ("target", PStr "personal")] /\
  PERSONAL_USER_ID env_group = None /\
  mcp_endpoint sample_interp env_group net_ok request_personal [] =
  (Return
     (JSONResponse
        (tool_content
           (json_dumps sample_interp true (send_failed "PERSONAL_USER_ID is not configured")))
        200),
   []).
Proof.
  split; [reflexivity|]. split; [reflexivity|].
  apply (C4_personal_unconfigured sample_interp env_group net_ok request_personal
           [("message", PStr "hi"); ("target", PStr "personal")] []);
    reflexivity.
Defined.


Lemma C6_witness :
  send_arguments request_no_message = Some [("message", PStr "")] /\
  truthy (dict_get "message" [("message", PStr "")] PNone) = false /\
  mcp_endpoint sample_interp env_full net_ok request_no_message [] =
  (Return
     (JSONResponse
        (tool_content
           (json_dumps sample_interp true (send_failed "message parameter is required")))
        200),
   []).
Proof.
  split; [reflexivity|]. split; [reflexivity|].
  apply (proj1 (C6_message_required sample_interp env_full net_ok request_no_message
                  [("message", PStr "")] [] eq_refl eq_refl)).
Defined.

Lemma C7_witness :
  PStr "resources/list" <> PStr "initialize" /\
  PStr "resources/list" <> PStr "tools/list" /\
  PStr "resources/list" <> PStr "tools/call" /\
  has_surrogate "resources/list" = false /\
  mcp_endpoint sample_interp env_full net_ok (PDict [("method", PStr "resources/list")]) [] =
  (Return
     (JSONResponse
        (PDict [("error",
                 PDict [("code", PInt (-32601));
                        ("message", PStr "Method not found: resources/list")])])
        404),
   []).
Proof.
  split; [discriminate|]. split; [discriminate|]. split; [discriminate|].
  split; [reflexivity|].
  apply (proj1 (C7_method_not_found sample_interp env_full net_ok
                  [("method", PStr "resources/list")] []));
    try discriminate; reflexivity.
Defined.

Lemma C8_witness :
  mcp_endpoint sample_interp env_full net_ok (request_tools_list PNone) [] =
  (Return (JSONResponse tools_list_result 200), []) /\
  mcp_endpoint sample_interp env_full net_down
    (request_tools_list (PDict [("cursor", PInt 1)])) [Log INFO "earlier"] =
  (Return (JSONResponse tools_list_result 200), [Log INFO "earlier"]).
Proof.
  destruct (C8_tools_list_pure sample_interp env_full net_ok net_down
              [("method", PStr "tools/list"); ("params", PNone)]
              [("method", PStr "tools/list"); ("params", PDict [("cursor", PInt 1)])]
              [] [Log INFO "earlier"] eq_refl eq_refl) as (H1 & H2 & _ & _).
  split; [exact H1 | exact H2].
Defined.

Lemma C9_witness :
  (forall cause,
     net_down [] (push_request sample_interp env_full (PStr "hi")
                    (py_or (PStr "G1") (of_env (GROUP_ID env_full))))
     <> Raised cause) /\
  exists result tr',
    send_line_message sample_interp env_full net_down (PStr "hi") (PStr "G1") [] =
    (Return result, tr') /\
    has_key "error" result = true /\
    has_key "message" result = false /\
    has_key "group_id" result = false /\
    succeeded result = false.
Proof.
  assert (Hnet : forall cause,
             net_down [] (push_request sample_interp env_full (PStr "hi")
                            (py_or (PStr "G1") (of_env (GROUP_ID env_full))))
             <> Raised cause) by discriminate.
  split; [exact Hnet|].
  destruct (C9_result_shape sample_interp env_full net_down (PStr "hi") (PStr "G1") [])
    as [Hshape Hreturns].
  destruct (Hreturns Hnet) as (result & tr' & Hrun).
  exists result, tr'. split; [exact Hrun|].
  destruct (Hshape result tr' Hrun) as (_ & H1 & H2 & H3).
  assert (Hs : succeeded result = false)
    by (vm_compute in Hrun; injection Hrun as <- _; reflexivity).
  rewrite Hs in H2, H3. rewrite H2 in H1.
  repeat split; try assumption.
  now destruct (has_key "error" result).
Defined.

Lemma C10_witness :
  call_params request_call_no_params = Some [] /\
  mcp_endpoint sample_interp env_full net_ok request_call_no_params [] =
  (Return
     (JSONResponse
        (tool_content (json_dumps sample_interp true (send_failed "Unknown tool: None")))
        200),
   []).
Proof.
  split; [reflexivity|].
  apply (proj1 (C10_unknown_tool_none sample_interp env_full net_ok
                  request_call_no_params [] [] eq_refl eq_refl)).
Defined.

(** ** Where the statements of the specification part from the code *)

(** C2: an answer with status 304 is no 2xx answer, and the result is the
    success all the same.  And with the access token "あ", which is no
    Latin-1 text, the call is refused with a UnicodeEncodeError, which is no
    RequestException: the function returns no result at all. *)
Lemma C2_counterexample :
  (let req := push_request sample_interp env_full (PStr "hi") (PStr "G1") in
   exists r,
     net_not_modified [] req = Responded r /\
     ~ (200 <= status_code r < 300) /\
     send_line_message sample_interp env_full net_not_modified (PStr "hi") (PStr "G1") [] =
     (Return (send_ok (PStr "G1")), [Post req]) /\
     succeeded (send_ok (PStr "G1")) = true) /\
  (let req := push_request sample_interp env_kana (PStr "hi") (PStr "G1") in
   CHANNEL_ACCESS_TOKEN env_kana = Some "あ" /\
   latin1 "あ" = false /\
   send_line_message sample_interp env_kana net_raises (PStr "hi") (PStr "G1") [] =
   (Raise
      (UnicodeEncodeError
         "'latin-1' codec can't encode character '\u3042' in position 7: ordinal not in range(256)"),
    [Post req])).
Proof.
  split.
  - eexists. split; [reflexivity|]. split; [simpl; lia|]. split; reflexivity.
  - repeat split; reflexivity.
Qed.

(** C3: the two failures do not carry the texts "recipient not configured"
    and "credentials not configured". *)
Lemma C3_counterexample :
  send_line_message sample_interp env_empty net_ok (PStr "hi") PNone [] <>
  (Return (send_failed "recipient not configured"), []) /\
  send_line_message sample_interp env_no_token net_ok (PStr "hi") PNone [] <>
  (Return (send_failed "credentials not configured"), []).
Proof.
  split; intros H; vm_compute in H; discriminate H.
Qed.

(** C4: without a message the call ends at the check of the message, before
    the recipient is looked at. *)
Lemma C4_counterexample :
  send_arguments request_personal_no_message = Some [("target", PStr "personal")] /\
  dict_lookup "target" [("target", PStr "personal")] = Some (PStr "personal") /\
  dict_lookup "user_id" [("target", PStr "personal")] = None /\
  PERSONAL_USER_ID env_group = None /\
  mcp_endpoint sample_interp env_group net_ok request_personal_no_message [] =
  (Return
     (JSONResponse
        (tool_content
           (json_dumps sample_interp true (send_failed "message parameter is required")))
        200),
   []) /\
  mcp_endpoint sample_interp env_group net_ok request_personal_no_message [] <>
  (Return
     (JSONResponse
        (tool_content
           (json_dumps sample_interp true (send_failed "PERSONAL_USER_ID is not configured")))
        200),
   []).
Proof.
  repeat (split; [reflexivity|]).
  intros H; vm_compute in H; discriminate H.
Qed.


(** C6: with [arguments] given as null the message is absent, and the
    answer is the HTTP 500 of the dispatcher's [except] clause. *)
Lemma C6_counterexample :
  at_path ["params"; "name"] request_null_arguments = Some (PStr "send_line_message") /\
  at_path ["params"; "arguments"; "message"] request_null_arguments = None /\
  mcp_endpoint sample_interp env_full net_ok request_null_arguments [] =
  (Return (internal_error_reply "'NoneType' object has no attribute 'get'"),
   [internal_error_log "'NoneType' object has no attribute 'get'"]) /\
  status (internal_error_reply "'NoneType' object has no attribute 'get'") = 500.
Proof.
  repeat split; reflexivity.
Qed.

(** C7: the method U+D800, a lone surrogate, is none of the three, and the
    404 reply that names it cannot be encoded: the answer is the HTTP 500
    of the [except] clause, with code -32603 and the text of the
    UnicodeEncodeError. *)
Lemma C7_counterexample :
  let cause :=
    "'utf-8' codec can't encode character '\ud800' in position 53: surrogates not allowed" in
  at_path ["method"] request_surrogate_method = Some (PStr lone_surrogate) /\
  code_point lone_surrogate = 55296 /\
  PStr lone_surrogate <> PStr "initialize" /\
  PStr lone_surrogate <> PStr "tools/list" /\
  PStr lone_surrogate <> PStr "tools/call" /\
  mcp_endpoint sample_interp env_full net_ok request_surrogate_method [] =
  (Return (internal_error_reply cause), [internal_error_log cause]) /\
  status (internal_error_reply cause) = 500 /\
  at_path ["error"; "code"] (content (internal_error_reply cause)) = Some (PInt (-32603)).
Proof.
  split; [reflexivity|]. split; [reflexivity|].
  split; [discriminate|]. split; [discriminate|]. split; [discriminate|].
  repeat split; reflexivity.
Qed.

(** C10: with [params] given as null there is no name, and the answer is
    the HTTP 500 of the dispatcher's [except] clause. *)
Lemma C10_counterexample :
  at_path ["method"] request_null_params = Some (PStr "tools/call") /\
  at_path ["params"; "name"] request_null_params = None /\
  mcp_endpoint sample_interp env_full net_ok request_null_params [] =
  (Return (internal_error_reply "'NoneType' object has no attribute 'get'"),
   [internal_error_log "'NoneType' object has no attribute 'get'"]) /\
  status (internal_error_reply "'NoneType' object has no attribute 'get'") = 500.
Proof.
  repeat split; reflexivity.
Qed.

(** ** The further statements at sample inputs *)

Lemma X2_witness :
  exists cause tr1,
    internal_error_reply
      (encode_error sample_interp
         (tool_content (json_dumps sample_interp false (send_ok (PStr lone_surrogate)))))
    = internal_error_reply cause /\
    [Post (push_request sample_interp env_full (PStr "hi") (PStr lone_surrogate));
     internal_error_log
       (encode_error sample_interp
          (tool_content (json_dumps sample_interp false (send_ok (PStr lone_surrogate)))))]
    = (tr1 ++ [internal_error_log cause])%list.
Proof.
  destruct (X2_internal_error_logged sample_interp env_full net_ok
              (tools_call_request "send_line_message"
                 [("message", PStr "hi"); ("group_id", PStr lone_surrogate)])
              []
              [Post (push_request sample_interp env_full (PStr "hi") (PStr lone_surrogate));
               internal_error_log
                 (encode_error sample_interp
                    (tool_content
                       (json_dumps sample_interp false (send_ok (PStr lone_surrogate)))))]
              (internal_error_reply
                 (encode_error sample_interp
                    (tool_content
                       (json_dumps sample_interp false (send_ok (PStr lone_surrogate))))))
              eq_refl eq_refl)
    as (cause & tr1 & H1 & H2 & _).
  exists cause, tr1. split; [exact H1 | exact H2].
Defined.

Lemma X3_witness :
  mcp_endpoint sample_interp env_full net_ok (PStr "ping") [] =
  (Return (internal_error_reply "'str' object has no attribute 'get'"),
   [internal_error_log "'str' object has no attribute 'get'"]) /\
  mcp_endpoint sample_interp env_full net_ok request_null_params [] =
  (Return (internal_error_reply "'NoneType' object has no attribute 'get'"),
   [internal_error_log "'NoneType' object has no attribute 'get'"]) /\
  mcp_endpoint sample_interp env_full net_ok request_list_arguments [] =
  (Return (internal_error_reply "'list' object has no attribute 'get'"),
   [internal_error_log "'list' object has no attribute 'get'"]).
Proof.
  destruct (X3_malformed_request sample_interp env_full net_ok []) as (H1 & H2 & H3).
  split; [|split].
  - apply (H1 (PStr "ping")). reflexivity.
  - apply (H2 [("method", PStr "tools/call"); ("params", PNone)] PNone); reflexivity.
  - apply (H3 request_list_arguments
              [("name", PStr "send_line_message"); ("arguments", PList [PStr "hi"])]
              (PList [PStr "hi"]));
      reflexivity.
Defined.

Lemma X4_witness :
  mcp_endpoint sample_interp env_empty net_fails request_initialize [Log INFO "earlier"] =
  (Return (JSONResponse initialize_result 200), [Log INFO "earlier"]).
Proof.
  apply (X4_initialize sample_interp env_empty net_fails
           [("method", PStr "initialize"); ("params", PDict [("clientInfo", PStr "x")])]
           [Log INFO "earlier"]).
  reflexivity.
Defined.

Lemma X5_witness :
  call_params request_other_tool
    = Some [("name", PStr "read_messages"); ("arguments", PInt 3)] /\
  mcp_endpoint sample_interp env_full net_ok request_other_tool [] =
  (Return
     (JSONResponse
        (tool_content
           (json_dumps sample_interp true (send_failed "Unknown tool: read_messages")))
        200),
   []).
Proof.
  split; [reflexivity|].
  apply (X5_unknown_tool sample_interp env_full net_ok request_other_tool
           [("name", PStr "read_messages"); ("arguments", PInt 3)] []);
    [reflexivity | discriminate].
Defined.



Lemma X8_witness :
  at_path ["channel_token_configured"] (health_check env_no_token) = Some (PBool false) /\
  posts (snd (mcp_endpoint sample_interp env_no_token net_ok request_hi [])) = [].
Proof.
  split; [reflexivity|].
  apply (X8_no_token_no_call sample_interp env_no_token net_ok request_hi []).
  reflexivity.
Defined.

Lemma X10_witness :
  exists reply tr',
    mcp_endpoint sample_interp env_full net_fails request_hi [] = (Return reply, tr') /\
    (status reply = 500 \/
     (status reply = 200 /\
      exists ensure_ascii result flag,
        content reply =
        PDict [("content",
                PList [PDict [("type", PStr "text");
                              ("text", PStr (json_dumps sample_interp ensure_ascii result))]])] /\
        at_path ["success"] result = Some (PBool flag))).
Proof.
  apply (X10_tool_result_envelope sample_interp env_full net_fails
           [("method", PStr "tools/call");
            ("params", PDict [("name", PStr "send_line_message");
                              ("arguments", PDict [("message", PStr "hi");
                                                   ("target", PStr "group")])])]
           []).
  reflexivity.
Defined.

Lemma X11_witness :
  send_line_message sample_interp env_full net_ok (PStr "hi") (PStr "") [] =
  (Return (send_ok (PStr "G1")),
   [Post (push_request sample_interp env_full (PStr "hi") (PStr "G1"))]).
Proof.
  apply (proj2 (X11_default_recipient sample_interp env_full net_ok (PStr "hi") (PStr "")
                  "G1" "tok" [] eq_refl eq_refl ltac:(discriminate) eq_refl
                  ltac:(discriminate))
               {| status_code := 200; reason := "OK";
                  final_url := "https://api.line.me/v2/bot/message/push" |});
    reflexivity.
Defined.


Lemma X14_witness :
  webhook sample_interp env_full net_ok (PInt 7) [] =
  (Return (webhook_error_reply "'int' object has no attribute 'get'"),
   [webhook_received sample_interp (PInt 7);
    webhook_error_log "'int' object has no attribute 'get'"]) /\
  webhook sample_interp env_full net_ok (PDict [("events", PNone)]) [] =
  (Return (webhook_error_reply "'NoneType' object is not iterable"),
   [webhook_received sample_interp (PDict [("events", PNone)]);
    webhook_error_log "'NoneType' object is not iterable"]) /\
  webhook sample_interp env_full net_ok (PDict [("events", PStr "x")]) [] =
  (Return (webhook_error_reply "'str' object has no attribute 'get'"),
   [webhook_received sample_interp (PDict [("events", PStr "x")]);
    webhook_error_log "'str' object has no attribute 'get'"]).
Proof.
  destruct (X14_webhook_unreadable_body sample_interp env_full net_ok []) as (H1 & H2 & H3).
  split; [|split].
  - apply (H1 (PInt 7)). reflexivity.
  - apply (H2 [("events", PNone)] PNone); reflexivity.
  - apply (H3 [("events", PStr "x")] (PStr "x")); [reflexivity|].
    right. exists "x". split; [reflexivity | discriminate].
Defined.

Lemma X15_witness :
  forallb skipped_event [event_follow; event_follow] = true /\
  webhook sample_interp env_full net_fails (webhook_of [event_follow; event_follow]) [] =
  (Return status_ok,
   [webhook_received sample_interp (webhook_of [event_follow; event_follow])]).
Proof.
  split; [reflexivity|].
  apply (X15_webhook_skips_other_events sample_interp env_full net_fails
           [("events", PList [event_follow; event_follow])] [event_follow; event_follow] []);
    reflexivity.
Defined.

Lemma X16_witness :
  exists tr',
    webhook sample_interp env_full net_ok
      (webhook_of [event_userid; PStr "oops"; event_userid]) [] =
    (Return (webhook_error_reply "'str' object has no attribute 'get'"), tr') /\
    posts tr' = [reply_request sample_interp env_full (PStr "R1") "あなたのUser IDは: U1"].
Proof.
  apply (X16_webhook_stops_at_non_object sample_interp env_full net_ok
           [("events", PList [event_userid; PStr "oops"; event_userid])]
           [event_userid] [event_userid] (PStr "oops") [] net_ok_answers);
    reflexivity.
Defined.

Lemma X17_witness :
  exists tr',
    webhook sample_interp env_full net_ok
      (webhook_of [event_userid; event_number; event_userid]) [] =
    (Return (webhook_error_reply "'int' object has no attribute 'lower'"), tr') /\
    posts tr' = [reply_request sample_interp env_full (PStr "R1") "あなたのUser IDは: U1"].
Proof.
  apply (X17_webhook_stops_at_bad_text sample_interp env_full net_ok
           [("events", PList [event_userid; event_number; event_userid])]
           [("type", PStr "message");
            ("source", PDict [("userId", PStr "U3")]);
            ("message", PDict [("text", PInt 5)])]
           [("userId", PStr "U3")] [("text", PInt 5)]
           [event_userid] [event_userid] [] net_ok_answers);
    reflexivity.
Defined.

Lemma X18_witness :
  (exists tr',
     webhook sample_interp env_full net_fails
       (webhook_of [event_hello; event_userid; event_userid]) [] =
     (Return (webhook_error_reply "connection refused"), tr') /\
     posts tr' = [reply_request sample_interp env_full (PStr "R1") "あなたのUser IDは: U1"]) /\
  (exists tr',
     webhook sample_interp env_full net_fails (webhook_of [event_hello]) [] =
     (Return status_ok, tr') /\
     posts tr' = []).
Proof.
  split.
  - apply (X18_webhook_failing_network sample_interp env_full net_fails "connection refused"
             [("events", PList [event_hello; event_userid; event_userid])]
             [event_hello; event_userid; event_userid] [] net_fails_always);
      reflexivity.
  - apply (X18_webhook_failing_network sample_interp env_full net_fails "connection refused"
             [("events", PList [event_hello])] [event_hello] [] net_fails_always);
      reflexivity.
Defined.

Lemma X19_witness :
  exists tr',
    webhook sample_interp env_full net_ok (webhook_of [event_join; event_hello]) [] =
    (Return status_ok, tr') /\
    logs tr' =
    (logs [webhook_received sample_interp (webhook_of [event_join; event_hello])] ++
     [(INFO, "===== USER ID DETECTED =====");
      (INFO, "User ID: U2");
      (INFO, "Group ID: G7");
      (INFO, "Message: hello");
      (INFO, "============================")])%list.
Proof.
  destruct (X19_webhook_log_records sample_interp env_full net_ok
              [("events", PList [event_join; event_hello])]
              [event_join; event_hello] [] net_ok_answers
              eq_refl eq_refl) as (tr' & Hrun & Hlogs & _).
  exists tr'. split; [exact Hrun | exact Hlogs].
Defined.
